(** * Kaiwu ChatGPT plugin server: a shallow embedding of [server/main.py]

    The server is a FastAPI application.  Its handlers are thin: they inspect
    the request, call a collaborator (the vector datastore, the file text
    extractor, the Wix identity provider, the logger) and shape a response.
    The embedding keeps that structure: a handler is a finite tree of
    collaborator calls ([prog]), and a collaborator is whatever answers
    them ([World]).  Statements about "every datastore behaviour" quantify
    over worlds. *)

From Stdlib Require Import ZArith Ascii String List.
From stdpp Require Import base option list strings gmap.
Import ListNotations.

Local Open Scope string_scope.
Local Open Scope Z_scope.

(** ** Python values *)

Module Py.

(** [bool(x)], as [if x], [not x] and [x or y] use it. *)
Class Truthy (A : Type) := truthy : A -> bool.
Global Hint Mode Truthy ! : typeclass_instances.

#[global] Instance truthy_bool : Truthy bool := fun b => b.

#[global] Instance truthy_str : Truthy string :=
  fun s => match s with EmptyString => false | String _ _ => true end.

#[global] Instance truthy_list {A} : Truthy (list A) :=
  fun l => match l with [] => false | _ :: _ => true end.

(** [None] is falsy; any other value has its own truth value. *)
#[global] Instance truthy_optional {A} `{Truthy A} : Truthy (option A) :=
  fun o => match o with None => false | Some x => truthy x end.

(** [a != b] for [a : str] and [b : Optional[str]], as in
    [client_id != os.environ.get("CLIENT_ID")]: a string never equals [None]. *)
Definition ne (a : string) (b : option string) : bool :=
  match b with
  | None => true
  | Some b' => negb (String.eqb a b')
  end.

(** [f"{x}"] for [x : Optional[str]]. *)
Definition format (x : option string) : string :=
  match x with
  | None => "None"
  | Some s => s
  end.

End Py.
Import Py.

(** ** Exceptions

    [fastapi.HTTPException(status_code=..., detail=...)] is the one exception
    class the server constructs itself; FastAPI answers a request whose
    handling raises it with that status and detail.  Every other exception
    (raised by a collaborator or by a builtin operation) is kept as its class
    name and the text [str(e)] yields. *)

Inductive Exception :=
| HTTPException (status_code : Z) (detail : string)
| Error (cls : string) (text : string).

(** [d[key]] on a dict without [key]. *)
Definition KeyError (key : string) : Exception :=
  Error "KeyError" ("'" +:+ key +:+ "'").

(** [None + "..."]. *)
Definition TypeError_NoneType_plus_str : Exception :=
  Error "TypeError" "unsupported operand type(s) for +: 'NoneType' and 'str'".

(** ** Declarations the server imports

    [models.api], [models.models], [fastapi] and [starlette] are not part of
    the server module.  What the handlers need of them is collected here:
    the payload types are opaque, since the handlers only pass them on. *)

Class Models := {
  (** [models.models.Document], [Query], [QueryResult] *)
  Document : Type;
  Query : Type;
  QueryResult : Type;
  (** [models.models.DocumentMetadataFilter] and its truth value [bool(f)] *)
  DocumentMetadataFilter : Type;
  DocumentMetadataFilter_bool : DocumentMetadataFilter -> bool;
  (** [models.models.DocumentMetadata], [Source] and [Source.file] *)
  DocumentMetadata : Type;
  Source : Type;
  Source_file : Source;
  (** [DocumentMetadata(source=s)] *)
  DocumentMetadata_of_source : Source -> DocumentMetadata;
  (** [DocumentMetadata.parse_raw(text)]: the parsed value, or the exception
      it raises *)
  DocumentMetadata_parse_raw : string -> Exception + DocumentMetadata;
  (** [fastapi.UploadFile] *)
  UploadFile : Type;
  (** [str(e)] for [e] an [HTTPException] with the given status and detail *)
  HTTPException_str : Z -> string -> string
}.

#[global] Instance truthy_filter `{Models} : Truthy DocumentMetadataFilter :=
  DocumentMetadataFilter_bool.

(** [str(e)] *)
Definition str `{Models} (e : Exception) : string :=
  match e with
  | HTTPException status_code detail => HTTPException_str status_code detail
  | Error _ text => text
  end.

(** *** Request and response models of [models.api]

    The handlers name the fields ([request.documents], [ids=ids], ...); the
    classes themselves are declared in [models.api]. *)

Module UpsertRequest.
Record t `{Models} := mk { documents : list Document }.
#[global] Arguments mk {_} _.
End UpsertRequest.

Module UpsertResponse.
Record t := mk { ids : list string }.
End UpsertResponse.

Module QueryRequest.
Record t `{Models} := mk { queries : list Query }.
#[global] Arguments mk {_} _.
End QueryRequest.

Module QueryResponse.
Record t `{Models} := mk { results : list QueryResult }.
#[global] Arguments mk {_} _.
End QueryResponse.

Module DeleteRequest.
(** Modelled from the spec: [models.api.DeleteRequest] is not in the server
    module; the body of [DELETE /delete] is [{ids?, filter?, delete_all?}],
    each field optional.  An absent field is [None]. *)
Record t `{Models} := mk {
  ids : option (list string);
  filter : option DocumentMetadataFilter;
  delete_all : option bool
}.
#[global] Arguments mk {_} _ _ _.
End DeleteRequest.

Module DeleteResponse.
Record t := mk { success : bool }.
End DeleteResponse.

(** ** Handlers as trees of collaborator calls *)

Section Programs.
Context `{M : Models}.

(** The calls the handlers make to code outside the server module.  The
    Wix helpers are taken to return strings: a pair of tokens, and the name
    of the subscription tier. *)
Inductive call :=
| datastore_upsert (documents : list Document)
| datastore_query (queries : list Query)
| datastore_delete (ids : option (list string))
    (filter : option DocumentMetadataFilter) (delete_all : option bool)
| get_document_from_file (file : UploadFile) (metadata : DocumentMetadata)
| get_member_access_token (code : string) (code_verifier : string)
| wix_get_subscription (member_access_token : string)
| logger_error (e : Exception).

(** What a call returns when it does not raise. *)
Definition returns (c : call) : Type :=
  match c with
  | datastore_upsert _ => list string
  | datastore_query _ => list QueryResult
  | datastore_delete _ _ _ => bool
  | get_document_from_file _ _ => Document
  | get_member_access_token _ _ => (string * string)%type
  | wix_get_subscription _ => string
  | logger_error _ => unit
  end.

(** A call ends by raising or by returning. *)
Definition answer (c : call) : Type := (Exception + returns c)%type.

(** A handler body: it returns, raises, or makes a call and goes on with
    the answer. *)
Inductive prog (R : Type) : Type :=
| Return (r : R)
| Raise (e : Exception)
| Call (c : call) (k : answer c -> prog R).

#[global] Arguments Return {R} r.
#[global] Arguments Raise {R} e.
#[global] Arguments Call {R} c k.

(** [f(...)] / [await f(...)]: the value returned, an exception propagating. *)
Definition call_ (c : call) : prog (returns c) :=
  Call c (fun a => match a with inl e => Raise e | inr x => Return x end).

Fixpoint bind {A B} (p : prog A) (f : A -> prog B) : prog B :=
  match p with
  | Return a => f a
  | Raise e => Raise e
  | Call c k => Call c (fun a => bind (k a) f)
  end.

(** [try: body  except Exception as e: handler(e)] *)
Fixpoint try_except {R} (body : prog R) (handler : Exception -> prog R) : prog R :=
  match body with
  | Return r => Return r
  | Raise e => handler e
  | Call c k => Call c (fun a => try_except (k a) handler)
  end.

#[global] Instance prog_ret : MRet prog := @Return.
#[global] Instance prog_bind : MBind prog := fun A B f p => bind p f.
#[global] Instance prog_fmap : FMap prog := fun A B f p => bind p (fun a => Return (f a)).

(** *** Running a handler against its collaborators

    A world answers every call, and may change with each one.  Running a
    handler yields the calls it made, in order, and how it ended. *)

Record World := {
  state : Type;
  respond : forall c : call, state -> answer c * state
}.

Inductive outcome (R : Type) : Type :=
| Returned (r : R)
| Raised (e : Exception).

#[global] Arguments Returned {R} r.
#[global] Arguments Raised {R} e.

Fixpoint run {R} (w : World) (s : state w) (p : prog R) : list call * outcome R :=
  match p with
  | Return r => ([], Returned r)
  | Raise e => ([], Raised e)
  | Call c k =>
      let '(a, s') := respond w c s in
      let '(calls, o) := run w s' (k a) in
      (c :: calls, o)
  end.

Definition is_datastore_call (c : call) : bool :=
  match c with
  | datastore_upsert _ | datastore_query _ | datastore_delete _ _ _ => true
  | _ => false
  end.

(** The datastore calls among the calls made. *)
Definition datastore_calls (calls : list call) : list call :=
  List.filter is_datastore_call calls.

End Programs.

(** ** The server module *)

(** [fastapi.security.HTTPAuthorizationCredentials]: the scheme and the
    credentials of the request's [Authorization] header, as [HTTPBearer]
    hands them to [validate_token]. *)
Module HTTPAuthorizationCredentials.
Record t := mk { scheme : string; credentials : string }.
End HTTPAuthorizationCredentials.

(** The body of [POST /oauth/callback/]. *)
Module SubscriptionRequest.
Record t := mk { code : string; state : string }.
End SubscriptionRequest.

(** [{"access_token": ..., "token_type": ...}], the value [authorization]
    returns; [os.environ.get] gives the first entry, so it may be [None]. *)
Module TokenResponse.
Record t := mk { access_token : option string; token_type : string }.
End TokenResponse.

(** [JSONResponse(content={"message": ..., "url": ...})] *)
Module JSONResponse.
Record t := mk { message : string; url : string }.
End JSONResponse.

Section Server.
Context `{M : Models}.

(** [os.environ] *)
Variable environ : gmap string string.

(** The session [get_session_data] yields: the dict of the caller's session
    cookie.  Every value the server stores in it is a string. *)
Abbreviation session := (gmap string string).

(** [BEARER_TOKEN = os.environ.get("BEARER_TOKEN")]; the module asserts it
    is not [None] when it is loaded. *)
Definition BEARER_TOKEN : option string := environ !! "BEARER_TOKEN".

Definition validate_token (credentials : HTTPAuthorizationCredentials.t)
  : prog HTTPAuthorizationCredentials.t :=
  if negb (String.eqb credentials.(HTTPAuthorizationCredentials.scheme) "Bearer")
     || Py.ne credentials.(HTTPAuthorizationCredentials.credentials) BEARER_TOKEN
  then Raise (HTTPException 401 "Invalid or missing token")
  else Return credentials.

(** *** The OAuth sub-application *)

Definition get_oauth_params (response_type client_id scope state redirect_uri : string)
  : session :=
  {[ "response_type" := response_type;
     "client_id" := client_id;
     "scope" := scope;
     "state" := state;
     "redirect_uri" := redirect_uri ]}.

(** [GET /oauth/login/]: [session_data.update(oauth_params)], then the login
    page.  The result is the session after the request and the template
    rendered. *)
Definition login (oauth_params : session) (session_data : session) : session * string :=
  (oauth_params ∪ session_data, "login.html").

(** [d[key]] *)
Definition getitem (d : session) (key : string) : prog string :=
  match d !! key with
  | Some v => Return v
  | None => Raise (KeyError key)
  end.

(** [a + b] for [a : Optional[str]] and [b : str] *)
Definition add (a : option string) (b : string) : prog string :=
  match a with
  | Some a' => Return (a' +:+ b)
  | None => Raise TypeError_NoneType_plus_str
  end.

(** [POST /oauth/callback/] *)
Definition subscription (request : SubscriptionRequest.t) (session_data : session)
  : prog JSONResponse.t :=
  let state := session_data !! "state" in
  let redirect_uri := session_data !! "redirect_uri" in
  let openai_code := environ !! "OPENAI_CODE" in
  url ← add redirect_uri ("?state=" +:+ Py.format state +:+ "&code=" +:+ Py.format openai_code);
  let wix_code := request.(SubscriptionRequest.code) in
  code_verifier ← getitem session_data "code_verifier";
  tokens ← call_ (get_member_access_token wix_code code_verifier);
  let '(member_access_token, member_refresh_token) := (tokens : string * string) in
  subscription ← call_ (wix_get_subscription member_access_token);
  if String.eqb subscription "Elite"
  then Return (JSONResponse.mk "You are an Elite member." url)
  else Return (JSONResponse.mk "You are not an Elite member." "https://www.kaiwu.info").

(** [POST /oauth/authorization/] *)
Definition authorization (client_id client_secret code : string) : prog TokenResponse.t :=
  if Py.ne client_id (environ !! "CLIENT_ID")
     || Py.ne client_secret (environ !! "CLIENT_SECRET")
     || Py.ne code (environ !! "OPENAI_CODE")
  then Raise (HTTPException 401 "Invalid or missing token")
  else Return (TokenResponse.mk (environ !! "BEARER_TOKEN") "bearer").

(** *** The document API *)

(** [POST /upsert-file] *)
Definition upsert_file (file : UploadFile) (metadata : option string)
  : prog UpsertResponse.t :=
  metadata_obj ←
    try_except
      (match metadata with
       | Some text =>
           if truthy text
           then match DocumentMetadata_parse_raw text with
                | inl e => Raise e
                | inr parsed => Return parsed
                end
           else Return (DocumentMetadata_of_source Source_file)
       | None => Return (DocumentMetadata_of_source Source_file)
       end)
      (fun _ => Return (DocumentMetadata_of_source Source_file));
  document ← call_ (get_document_from_file file metadata_obj);
  try_except
    (ids ← call_ (datastore_upsert [document]);
     Return (UpsertResponse.mk ids))
    (fun e =>
       _ ← call_ (logger_error e);
       Raise (HTTPException 500 ("str(" +:+ str e +:+ ")"))).

(** [POST /upsert] *)
Definition upsert (request : UpsertRequest.t) : prog UpsertResponse.t :=
  try_except
    (ids ← call_ (datastore_upsert request.(UpsertRequest.documents));
     Return (UpsertResponse.mk ids))
    (fun e =>
       _ ← call_ (logger_error e);
       Raise (HTTPException 500 "Internal Service Error")).

(** [POST /query] *)
Definition query_main (request : QueryRequest.t) : prog QueryResponse.t :=
  try_except
    (results ← call_ (datastore_query request.(QueryRequest.queries));
     Return (QueryResponse.mk results))
    (fun e =>
       _ ← call_ (logger_error e);
       Raise (HTTPException 500 "Internal Service Error")).

(** [POST /sub/query] *)
Definition query (request : QueryRequest.t) : prog QueryResponse.t :=
  try_except
    (results ← call_ (datastore_query request.(QueryRequest.queries));
     Return (QueryResponse.mk results))
    (fun e =>
       _ ← call_ (logger_error e);
       Raise (HTTPException 500 "Internal Service Error")).

(** [DELETE /delete] *)
Definition delete (request : DeleteRequest.t) : prog DeleteResponse.t :=
  if negb (truthy request.(DeleteRequest.ids)
           || truthy request.(DeleteRequest.filter)
           || truthy request.(DeleteRequest.delete_all))
  then Raise (HTTPException 400 "One of ids, filter, or delete_all is required")
  else
    try_except
      (success ← call_ (datastore_delete request.(DeleteRequest.ids)
                          request.(DeleteRequest.filter)
                          request.(DeleteRequest.delete_all));
       Return (DeleteResponse.mk success))
      (fun e =>
         _ ← call_ (logger_error e);
         Raise (HTTPException 500 "Internal Service Error")).

(** *** Routing

    [app] and [sub_app] are both built with
    [dependencies=[Depends(validate_token)]]: FastAPI runs the dependency
    first and calls the route's handler only when it returns.  The
    credentials are those [bearer_scheme] has returned for the request;
    [serve_app] and [serve_sub_app] below put [bearer_scheme] in front. *)

Inductive app_request :=
| POST_upsert_file (file : UploadFile) (metadata : option string)
| POST_upsert (body : UpsertRequest.t)
| POST_query (body : QueryRequest.t)
| DELETE_delete (body : DeleteRequest.t).

Inductive app_response :=
| upsert_response (r : UpsertResponse.t)
| query_response (r : QueryResponse.t)
| delete_response (r : DeleteResponse.t).

Definition app_route (r : app_request) : prog app_response :=
  match r with
  | POST_upsert_file file metadata => upsert_response <$> upsert_file file metadata
  | POST_upsert body => upsert_response <$> upsert body
  | POST_query body => query_response <$> query_main body
  | DELETE_delete body => delete_response <$> delete body
  end.

Definition app (credentials : HTTPAuthorizationCredentials.t) (r : app_request)
  : prog app_response :=
  _ ← validate_token credentials; app_route r.

(** The one route of [sub_app] is [POST /query]. *)
Definition sub_app (credentials : HTTPAuthorizationCredentials.t) (body : QueryRequest.t)
  : prog QueryResponse.t :=
  _ ← validate_token credentials; query body.

End Server.


(** ** Vocabulary of the statements *)

(** A field of the request that is absent, or present with a falsy value. *)
Definition absent_or_falsy {A} `{Truthy A} (field : option A) : Prop :=
  field = None \/ exists v, field = Some v /\ truthy v = false.

(** A field of the request that is present with a truthy value. *)
Definition present_and_truthy {A} `{Truthy A} (field : option A) : Prop :=
  exists v, field = Some v /\ truthy v = true.

Section Vocabulary.
Context `{M : Models}.
Variable environ : gmap string string.

(** [DocumentMetadata(source=Source.file)] *)
Definition default_metadata : DocumentMetadata := DocumentMetadata_of_source Source_file.

(** The value [upsert_file] binds to [metadata_obj]: the parsed metadata
    when the form string is non-empty and parses, the default otherwise. *)
Definition metadata_obj (metadata : option string) : DocumentMetadata :=
  match metadata with
  | Some text =>
      if truthy text
      then match DocumentMetadata_parse_raw text with
           | inr parsed => parsed
           | inl _ => default_metadata
           end
      else default_metadata
  | None => default_metadata
  end.

(** The URL [subscription] builds from the session and the environment. *)
Definition redirect_url (session_data : gmap string string) (redirect_uri : string) : string :=
  redirect_uri +:+ "?state=" +:+ Py.format (session_data !! "state")
  +:+ "&code=" +:+ Py.format (environ !! "OPENAI_CODE").

Definition elite_response (url : string) : JSONResponse.t :=
  JSONResponse.mk "You are an Elite member." url.

Definition non_elite_response : JSONResponse.t :=
  JSONResponse.mk "You are not an Elite member." "https://www.kaiwu.info".

End Vocabulary.

(** ** The login steps of the OAuth sub-application

    [POST /oauth/login/] and [GET /oauth/callback/].  The session dict is
    passed in and handed back as the handler leaves it. *)

(** [HTTPException(status_code=..., headers=...)], as [login_post] raises
    it: no detail, and the headers of the response. *)
Module HTTPRedirect.
Record t := mk { status_code : Z; headers : gmap string string }.
End HTTPRedirect.

(** [templates.TemplateResponse("callback.html", {"request": request,
    "wix_callback_url": wix_callback_url})]: the template and the value the
    handler puts in its context. *)
Module TemplateResponse.
Record t := mk { name : string; wix_callback_url : option string }.
End TemplateResponse.

(** [fastapi.status.HTTP_303_SEE_OTHER] *)
Definition HTTP_303_SEE_OTHER : Z := 303.

Section OAuthLogin.

(** [services.wix_oauth.wix_get_callback_url(username=..., password=...,
    state=...)]: the pair [(wix_callback_url, code_verifier)] it returns,
    both taken to be strings, or the exception it raises. *)
Variable wix_get_callback_url :
  string -> string -> option string -> Exception + (string * string).

(** [POST /oauth/login/].  The handler never returns: it ends by raising,
    either the exception of [wix_get_callback_url] or the 303.  The result
    is the session as it leaves it and what it raises. *)
Definition login_post (username password : string) (session_data : gmap string string)
  : gmap string string * (Exception + HTTPRedirect.t) :=
  let state := session_data !! "state" in
  match wix_get_callback_url username password state with
  | inl e => (session_data, inl e)
  | inr (wix_callback_url, code_verifier) =>
      let session_data := <["wix_callback_url" := wix_callback_url]> session_data in
      let session_data := <["code_verifier" := code_verifier]> session_data in
      let url := "../callback/" in
      (session_data, inr (HTTPRedirect.mk HTTP_303_SEE_OTHER {[ "Location" := url ]}))
  end.

End OAuthLogin.

(** [GET /oauth/callback/] *)
Definition callback (session_data : gmap string string) : TemplateResponse.t :=
  let wix_callback_url := session_data !! "wix_callback_url" in
  TemplateResponse.mk "callback.html" wix_callback_url.

(** The datastore call a route of [app] is written to make. *)
Definition route_datastore_call `{Models} (r : app_request) (c : call) : Prop :=
  match r with
  | POST_upsert_file _ _ => exists document : Document, c = datastore_upsert [document]
  | POST_upsert body => c = datastore_upsert body.(UpsertRequest.documents)
  | POST_query body => c = datastore_query body.(QueryRequest.queries)
  | DELETE_delete body =>
      c = datastore_delete body.(DeleteRequest.ids) body.(DeleteRequest.filter)
            body.(DeleteRequest.delete_all)
  end.

Definition is_logger_call `{Models} (c : call) : bool :=
  match c with
  | logger_error _ => true
  | _ => false
  end.

(** ** The dependency in front of [validate_token]

    [validate_token] takes its credentials from [Depends(bearer_scheme)],
    with [bearer_scheme = HTTPBearer()]: FastAPI calls [bearer_scheme] on the
    request first, and [validate_token] only with what it returns.  [app]
    and [sub_app] above are the routes from [validate_token] on; [serve_app]
    and [serve_sub_app] are the routes from the request's [Authorization]
    header on. *)

Section BearerScheme.
Context `{M : Models}.
Variable environ : gmap string string.

(** [bearer_scheme], the [HTTPBearer] instance: from the [Authorization]
    header of the request (absent: [None]) to the credentials it returns or
    the exception it raises.  The class is fastapi's. *)
Variable bearer_scheme : option string -> Exception + HTTPAuthorizationCredentials.t.

Definition serve_app (authorization : option string) (r : app_request)
  : prog app_response :=
  match bearer_scheme authorization with
  | inl e => Raise e
  | inr credentials => app environ credentials r
  end.

Definition serve_sub_app (authorization : option string) (body : QueryRequest.t)
  : prog QueryResponse.t :=
  match bearer_scheme authorization with
  | inl e => Raise e
  | inr credentials => sub_app environ credentials body
  end.

End BearerScheme.

(** [fastapi.security.HTTPBearer.__call__], with [auto_error] left at its
    default: the header is split at its first space into scheme and
    credentials; a missing header, scheme or credentials is answered with
    403 [Not authenticated], a scheme that is not [bearer] in some casing
    with 403 [Invalid authentication credentials]. *)
Module HTTPBearer.

(** [value.partition(" ")], without the separator. *)
Fixpoint partition_space (value : string) : string * string :=
  match value with
  | EmptyString => (EmptyString, EmptyString)
  | String c rest =>
      if Ascii.eqb c (ascii_of_N 32) then (EmptyString, rest)
      else let '(before, after) := partition_space rest in (String c before, after)
  end.

(** [c.lower()] on the letters [A] to [Z], which is all that matters for a
    comparison with [bearer]. *)
Definition lower_ascii (c : ascii) : ascii :=
  let n := N_of_ascii c in
  if ((65 <=? n) && (n <=? 90))%N then ascii_of_N (n + 32) else c.

Fixpoint lower (s : string) : string :=
  match s with
  | EmptyString => EmptyString
  | String c rest => String (lower_ascii c) (lower rest)
  end.

Definition get_authorization_scheme_param (authorization : option string)
  : string * string :=
  match authorization with
  | Some value => if truthy value then partition_space value
                  else (EmptyString, EmptyString)
  | None => (EmptyString, EmptyString)
  end.

Definition call (authorization : option string)
  : Exception + HTTPAuthorizationCredentials.t :=
  let '(scheme, credentials) := get_authorization_scheme_param authorization in
  if negb (truthy authorization && truthy scheme && truthy credentials)
  then inl (HTTPException 403 "Not authenticated")
  else if negb (String.eqb (lower scheme) "bearer")
  then inl (HTTPException 403 "Invalid authentication credentials")
  else inr (HTTPAuthorizationCredentials.mk scheme credentials).

End HTTPBearer.

(** ** Sessions the server writes

    A session starts empty (a first visit, or an expired cookie) and is
    written by [GET /oauth/login/] and [POST /oauth/login/] only, in any
    order and any number of times; the other handlers of the OAuth
    sub-application read it. *)
Inductive server_written : gmap string string -> Prop :=
| session_empty : server_written ∅
| session_after_login (response_type client_id scope state redirect_uri : string)
    (session_data : gmap string string) :
    server_written session_data ->
    server_written
      (login (get_oauth_params response_type client_id scope state redirect_uri)
         session_data).1
| session_after_login_post
    (wix_get_callback_url : string -> string -> option string
                            -> Exception + (string * string))
    (username password : string) (session_data : gmap string string) :
    server_written session_data ->
    server_written (login_post wix_get_callback_url username password session_data).1.

(** ** A concrete instance

    Payloads are plain strings; the collaborators are scripted. *)

Module Demo.

Definition models : Models := {|
  Document := string;
  Query := string;
  QueryResult := (string * list string)%type;
  DocumentMetadataFilter := list (string * string);
  DocumentMetadataFilter_bool := fun _ => true;
  DocumentMetadata := option string;
  Source := string;
  Source_file := "file";
  DocumentMetadata_of_source := Some;
  DocumentMetadata_parse_raw := fun text =>
    if String.eqb text "{}" then inr None
    else inl (Error "ValidationError" "1 validation error for DocumentMetadata");
  UploadFile := string;
  HTTPException_str := fun _ detail => detail
|}.
#[local] Existing Instance models.

Definition environ : gmap string string :=
  {[ "BEARER_TOKEN" := "bearer-secret";
     "CLIENT_ID" := "plugin-client";
     "CLIENT_SECRET" := "plugin-secret";
     "OPENAI_CODE" := "issued-code" ]}.

(** Every collaborator returns. *)
Definition healthy : @World models := {|
  state := unit;
  respond := fun c s =>
    (match c as c' return @answer models c' with
     | datastore_upsert documents => inr ["doc-1"]
     | datastore_query queries => inr (List.map (fun q => (q, [])) queries)
     | datastore_delete _ _ _ => inr true
     | get_document_from_file file _ => inr file
     | get_member_access_token _ _ => inr ("member-token", "refresh-token")
     | wix_get_subscription _ => inr "Elite"
     | logger_error _ => inr tt
     end, s)
|}.

(** As [healthy], but the datastore raises on every call. *)
Definition datastore_down : @World models := {|
  state := unit;
  respond := fun c s =>
    (match c as c' return @answer models c' with
     | datastore_upsert _ => inl (Error "ConnectionError" "connection to 10.0.0.5:6333 refused")
     | datastore_query _ => inl (Error "ConnectionError" "connection to 10.0.0.5:6333 refused")
     | datastore_delete _ _ _ =>
         inl (Error "ConnectionError" "connection to 10.0.0.5:6333 refused")
     | get_document_from_file file _ => inr file
     | get_member_access_token _ _ => inr ("member-token", "refresh-token")
     | wix_get_subscription _ => inr "Elite"
     | logger_error _ => inr tt
     end, s)
|}.

(** An uploaded file; the scripted extractor returns its name as the
    document. *)
Definition notes : UploadFile := "notes.txt".

Definition lowercase_credentials : HTTPAuthorizationCredentials.t :=
  HTTPAuthorizationCredentials.mk "bearer" "bearer-secret".

Definition query_request : @QueryRequest.t models := QueryRequest.mk ["hello"].

(** [{"ids": []}] *)
Definition delete_empty_ids : @DeleteRequest.t models :=
  DeleteRequest.mk (Some []) None None.

(** [{}] *)
Definition delete_nothing : @DeleteRequest.t models :=
  DeleteRequest.mk None None None.

(** [{"ids": [], "delete_all": false}] *)
Definition delete_falsy : @DeleteRequest.t models :=
  DeleteRequest.mk (Some []) None (Some false).

(** [{"ids": ["doc-1"]}] *)
Definition delete_one : @DeleteRequest.t models :=
  DeleteRequest.mk (Some ["doc-1"]) None None.

Definition subscription_request : SubscriptionRequest.t :=
  SubscriptionRequest.mk "wix-code" "wix-state".

(** A session after both login steps. *)
Definition session_complete : gmap string string :=
  {[ "state" := "xyz";
     "redirect_uri" := "https://chat.openai.com/aip/plugin/oauth/callback";
     "code_verifier" := "verifier" ]}.

(** A session that holds no [state]. *)
Definition session_without_state : gmap string string :=
  {[ "redirect_uri" := "https://chat.openai.com/aip/plugin/oauth/callback";
     "code_verifier" := "verifier" ]}.

(** A session that holds no [code_verifier]: the callback reached before
    [POST /oauth/login/]. *)
Definition session_without_code_verifier : gmap string string :=
  {[ "state" := "xyz";
     "redirect_uri" := "https://chat.openai.com/aip/plugin/oauth/callback" ]}.

(** As [healthy], but the text extractor raises. *)
Definition extractor_down : @World models := {|
  state := unit;
  respond := fun c s =>
    (match c as c' return @answer models c' with
     | datastore_upsert documents => inr ["doc-1"]
     | datastore_query queries => inr (List.map (fun q => (q, [])) queries)
     | datastore_delete _ _ _ => inr true
     | get_document_from_file _ _ => inl (Error "ValueError" "Unsupported file type")
     | get_member_access_token _ _ => inr ("member-token", "refresh-token")
     | wix_get_subscription _ => inr "Elite"
     | logger_error _ => inr tt
     end, s)
|}.

(** As [healthy], but the token exchange with the identity provider raises. *)
Definition token_exchange_down : @World models := {|
  state := unit;
  respond := fun c s =>
    (match c as c' return @answer models c' with
     | datastore_upsert documents => inr ["doc-1"]
     | datastore_query queries => inr (List.map (fun q => (q, [])) queries)
     | datastore_delete _ _ _ => inr true
     | get_document_from_file file _ => inr file
     | get_member_access_token _ _ => inl (Error "HTTPStatusError" "400 Bad Request")
     | wix_get_subscription _ => inr "Elite"
     | logger_error _ => inr tt
     end, s)
|}.

(** As [healthy], but the subscription lookup raises. *)
Definition subscription_lookup_down : @World models := {|
  state := unit;
  respond := fun c s =>
    (match c as c' return @answer models c' with
     | datastore_upsert documents => inr ["doc-1"]
     | datastore_query queries => inr (List.map (fun q => (q, [])) queries)
     | datastore_delete _ _ _ => inr true
     | get_document_from_file file _ => inr file
     | get_member_access_token _ _ => inr ("member-token", "refresh-token")
     | wix_get_subscription _ => inl (Error "HTTPStatusError" "503 Service Unavailable")
     | logger_error _ => inr tt
     end, s)
|}.

(** The identity provider accepts every login. *)
Definition wix_accepts (username password : string) (state : option string)
  : Exception + (string * string) :=
  inr ("https://www.wix.example/authorize?state=" +:+ Py.format state, "verifier").

(** The identity provider refuses every login. *)
Definition wix_refuses (username password : string) (state : option string)
  : Exception + (string * string) :=
  inl (Error "HTTPStatusError" "401 Unauthorized").

Definition valid_credentials : HTTPAuthorizationCredentials.t :=
  HTTPAuthorizationCredentials.mk "Bearer" "bearer-secret".

(** The parameters of an authorization request. *)
Definition oauth_params : gmap string string :=
  get_oauth_params "code" "plugin-client" "read" "xyz"
    "https://chat.openai.com/aip/plugin/oauth/callback".

End Demo.

(** ** Properties *)

Section Properties.
Context `{M : Models}.
Variable environ : gmap string string.

Implicit Types (w : World) (credentials : HTTPAuthorizationCredentials.t).

(** *** Python comparisons *)

Lemma ne_false_iff a b : Py.ne a b = false <-> b = Some a.
Proof.
  destruct b as [b'|]; simpl.
  - rewrite negb_false_iff, String.eqb_eq. split; congruence.
  - split; discriminate.
Qed.

Lemma ne_true_iff a b : Py.ne a b = true <-> b <> Some a.
Proof.
  rewrite <- ne_false_iff. destruct (Py.ne a b); split; congruence.
Qed.

(** *** Running programs *)

(** Case analysis on the answers of the calls a run makes, in order. *)
Ltac answer_cases :=
  repeat match goal with
    | |- context [respond ?w ?c ?s] =>
        let e := fresh "e" in
        let x := fresh "x" in
        let s' := fresh "s" in
        destruct (respond w c s) as [[e | x] s']; simpl
    end.

Lemma run_Raise {R} w (s : state w) e : run w s (Raise e : prog R) = ([], Raised e).
Proof. reflexivity. Qed.

(** A program that raises at once makes no call, whatever follows it. *)
Lemma bind_Raise {A B} e (f : A -> prog B) : (Raise e ≫= f) = Raise e.
Proof. reflexivity. Qed.

(** *** The token gate *)

Lemma validate_token_rejects credentials :
  credentials.(HTTPAuthorizationCredentials.scheme) <> "Bearer"
  \/ BEARER_TOKEN environ <> Some credentials.(HTTPAuthorizationCredentials.credentials) ->
  validate_token environ credentials = Raise (HTTPException 401 "Invalid or missing token").
Proof.
  intros H. unfold validate_token.
  destruct H as [H | H].
  - apply String.eqb_neq in H. rewrite H. reflexivity.
  - apply ne_true_iff in H. rewrite H. rewrite orb_true_r. reflexivity.
Qed.

Lemma validate_token_accepts credentials :
  credentials.(HTTPAuthorizationCredentials.scheme) = "Bearer" ->
  BEARER_TOKEN environ = Some credentials.(HTTPAuthorizationCredentials.credentials) ->
  validate_token environ credentials = Return credentials.
Proof.
  intros Hs Ht. unfold validate_token.
  apply String.eqb_eq in Hs. apply ne_false_iff in Ht.
  rewrite Hs, Ht. reflexivity.
Qed.

(** From [validate_token] on: credentials with a scheme other than
    [Bearer], or a token other than the configured [BEARER_TOKEN], are
    answered with 401; the handler is never entered, and against every world
    the request makes no call at all. *)
Theorem invalid_token_is_401_before_handler credentials (r : app_request)
    (body : QueryRequest.t) :
  credentials.(HTTPAuthorizationCredentials.scheme) <> "Bearer"
  \/ BEARER_TOKEN environ <> Some credentials.(HTTPAuthorizationCredentials.credentials) ->
  app environ credentials r = Raise (HTTPException 401 "Invalid or missing token")
  /\ sub_app environ credentials body = Raise (HTTPException 401 "Invalid or missing token")
  /\ forall w (s : state w),
       run w s (app environ credentials r)
         = ([], Raised (HTTPException 401 "Invalid or missing token"))
       /\ run w s (sub_app environ credentials body)
         = ([], Raised (HTTPException 401 "Invalid or missing token")).
Proof.
  intros H. apply validate_token_rejects in H.
  assert (Happ : app environ credentials r
                 = Raise (HTTPException 401 "Invalid or missing token")).
  { unfold app. rewrite H. apply bind_Raise. }
  assert (Hsub : sub_app environ credentials body
                 = Raise (HTTPException 401 "Invalid or missing token")).
  { unfold sub_app. rewrite H. apply bind_Raise. }
  split; [exact Happ|]. split; [exact Hsub|].
  intros w s. rewrite Happ, Hsub. split; apply run_Raise.
Qed.

(** *** The authorization endpoint *)

Lemma authorization_cases client_id client_secret code :
  (environ !! "CLIENT_ID" = Some client_id
   /\ environ !! "CLIENT_SECRET" = Some client_secret
   /\ environ !! "OPENAI_CODE" = Some code
   /\ authorization environ client_id client_secret code
      = Return (TokenResponse.mk (environ !! "BEARER_TOKEN") "bearer"))
  \/ (~ (environ !! "CLIENT_ID" = Some client_id
         /\ environ !! "CLIENT_SECRET" = Some client_secret
         /\ environ !! "OPENAI_CODE" = Some code)
      /\ authorization environ client_id client_secret code
         = Raise (HTTPException 401 "Invalid or missing token")).
Proof.
  unfold authorization.
  destruct (Py.ne client_id (environ !! "CLIENT_ID")) eqn:H1;
    [right; split; [|reflexivity] |].
  { apply ne_true_iff in H1. tauto. }
  destruct (Py.ne client_secret (environ !! "CLIENT_SECRET")) eqn:H2;
    [right; split; [|reflexivity] |].
  { apply ne_true_iff in H2. tauto. }
  destruct (Py.ne code (environ !! "OPENAI_CODE")) eqn:H3;
    [right; split; [|reflexivity] |].
  { apply ne_true_iff in H3. tauto. }
  left. apply ne_false_iff in H1, H2, H3. auto.
Qed.

(** C2. [POST /oauth/authorization/] returns the token response, whose
    [access_token] is the configured bearer token and whose [token_type] is
    [bearer], exactly when [client_id], [client_secret] and [code] each equal
    their configured value; it raises 401 exactly when one of them does not. *)
Theorem authorization_succeeds_iff_all_match client_id client_secret code :
  let all_match :=
    environ !! "CLIENT_ID" = Some client_id
    /\ environ !! "CLIENT_SECRET" = Some client_secret
    /\ environ !! "OPENAI_CODE" = Some code in
  (authorization environ client_id client_secret code
     = Return (TokenResponse.mk (BEARER_TOKEN environ) "bearer")
   <-> all_match)
  /\ (authorization environ client_id client_secret code
        = Raise (HTTPException 401 "Invalid or missing token")
      <-> ~ all_match).
Proof.
  cbv zeta. unfold BEARER_TOKEN.
  destruct (authorization_cases client_id client_secret code)
    as [(H1 & H2 & H3 & Hok) | [Hno Hko]].
  - rewrite Hok. split; split; intros H; try tauto; try discriminate.
  - rewrite Hko. split; split; intros H; try tauto; try discriminate.
Qed.

(** *** Delete *)

Lemma absent_or_falsy_truthy {A} `{Truthy A} (field : option A) :
  absent_or_falsy field <-> truthy field = false.
Proof.
  unfold absent_or_falsy. destruct field as [v|].
  - change (truthy (Some v)) with (truthy v). split.
    + intros [H0 | (v' & Hv & Hf)]; [discriminate | congruence].
    + intros Hf. right. exists v. auto.
  - split; auto.
Qed.

Lemma delete_falsy (request : DeleteRequest.t) :
  truthy request.(DeleteRequest.ids) = false ->
  truthy request.(DeleteRequest.filter) = false ->
  truthy request.(DeleteRequest.delete_all) = false ->
  delete request = Raise (HTTPException 400 "One of ids, filter, or delete_all is required").
Proof. intros H1 H2 H3. unfold delete. rewrite H1, H2, H3. reflexivity. Qed.

(** What [delete] does once the check on the criteria has passed: one
    [datastore.delete] call; its result is the response, its exception is
    logged and becomes a 500 (unless the logger raises in turn). *)
Lemma run_delete_truthy (request : DeleteRequest.t) w (s : state w) :
  truthy request.(DeleteRequest.ids)
  || truthy request.(DeleteRequest.filter)
  || truthy request.(DeleteRequest.delete_all) = true ->
  let c := datastore_delete request.(DeleteRequest.ids) request.(DeleteRequest.filter)
             request.(DeleteRequest.delete_all) in
  run w s (delete request)
  = match respond w c s with
    | (inr success, _) => ([c], Returned (DeleteResponse.mk success))
    | (inl e, s') =>
        ([c; logger_error e],
         match (respond w (logger_error e) s').1 with
         | inr _ => Raised (HTTPException 500 "Internal Service Error")
         | inl e' => Raised e'
         end)
    end.
Proof.
  intros H c. unfold delete. rewrite H. simpl. fold c.
  answer_cases; reflexivity.
Qed.

(** C3. A delete request in which [ids], [filter] and [delete_all] are all
    absent raises 400 before the datastore is reached: against every world
    it makes no call. *)
Theorem delete_all_absent_is_400 (request : DeleteRequest.t) :
  request.(DeleteRequest.ids) = None ->
  request.(DeleteRequest.filter) = None ->
  request.(DeleteRequest.delete_all) = None ->
  delete request
    = Raise (HTTPException 400 "One of ids, filter, or delete_all is required")
  /\ forall w (s : state w),
       run w s (delete request)
       = ([], Raised (HTTPException 400 "One of ids, filter, or delete_all is required")).
Proof.
  intros H1 H2 H3.
  assert (H : delete request
              = Raise (HTTPException 400 "One of ids, filter, or delete_all is required")).
  { apply delete_falsy; [rewrite H1 | rewrite H2 | rewrite H3]; reflexivity. }
  split; [exact H|]. intros w s. rewrite H. apply run_Raise.
Qed.

(** C10. The check is on truth values, not on presence: when each of [ids],
    [filter] and [delete_all] is absent or present with a falsy value (an
    empty [ids] list, [delete_all = false]), the request raises 400 and makes
    no call, although a criterion was supplied. *)
Theorem delete_falsy_criteria_is_400 (request : DeleteRequest.t) :
  absent_or_falsy request.(DeleteRequest.ids) ->
  absent_or_falsy request.(DeleteRequest.filter) ->
  absent_or_falsy request.(DeleteRequest.delete_all) ->
  delete request
    = Raise (HTTPException 400 "One of ids, filter, or delete_all is required")
  /\ forall w (s : state w),
       run w s (delete request)
       = ([], Raised (HTTPException 400 "One of ids, filter, or delete_all is required")).
Proof.
  intros H1 H2 H3. apply absent_or_falsy_truthy in H1, H2, H3.
  assert (H : delete request
              = Raise (HTTPException 400 "One of ids, filter, or delete_all is required")).
  { apply delete_falsy; assumption. }
  split; [exact H|]. intros w s. rewrite H. apply run_Raise.
Qed.

Lemma present_and_truthy_truthy {A} `{Truthy A} (field : option A) :
  present_and_truthy field <-> truthy field = true.
Proof.
  unfold present_and_truthy. destruct field as [v|].
  - change (truthy (Some v)) with (truthy v). split.
    + intros (v' & Hv & Ht). congruence.
    + intros Ht. exists v. auto.
  - split; [intros (v & Hv & _); discriminate | discriminate].
Qed.

(** C4, as the code has it. When at least one of [ids], [filter] and
    [delete_all] is present with a truthy value (a non-empty [ids] list, a
    truthy filter, [delete_all = true]), the handler calls
    [datastore.delete] exactly once, with exactly the request's [ids],
    [filter] and [delete_all], and when that call returns [success] the
    response is [{success: success}]. *)
Theorem delete_truthy_calls_datastore_once (request : DeleteRequest.t) w (s : state w) :
  present_and_truthy request.(DeleteRequest.ids)
  \/ present_and_truthy request.(DeleteRequest.filter)
  \/ present_and_truthy request.(DeleteRequest.delete_all) ->
  let c := datastore_delete request.(DeleteRequest.ids) request.(DeleteRequest.filter)
             request.(DeleteRequest.delete_all) in
  datastore_calls (run w s (delete request)).1 = [c]
  /\ forall (success : bool) s',
       respond w c s = (inr success, s') ->
       run w s (delete request) = ([c], Returned (DeleteResponse.mk success)).
Proof.
  intros H c.
  assert (Ht : truthy request.(DeleteRequest.ids)
               || truthy request.(DeleteRequest.filter)
               || truthy request.(DeleteRequest.delete_all) = true).
  { rewrite !orb_true_iff.
    destruct H as [H | [H | H]]; apply present_and_truthy_truthy in H; auto. }
  pose proof (run_delete_truthy request w s Ht) as Hrun. cbv zeta in Hrun. fold c in Hrun.
  split.
  - rewrite Hrun. destruct (respond w c s) as [[e | success] s']; reflexivity.
  - intros success s' Hc. rewrite Hrun, Hc. reflexivity.
Qed.

(** *** Upsert from a file *)

(** C5. When the [metadata] form string is present and
    [DocumentMetadata.parse_raw] raises on it, [upsert_file] is the same
    program as with [metadata] absent: it does not raise at that point, its
    first call is [get_document_from_file(file, DocumentMetadata(source=file))],
    and when that call and [datastore.upsert] return, the ids are the
    response. *)
Theorem upsert_file_unparseable_metadata_uses_default (file : UploadFile)
    (text : string) (e : Exception) :
  DocumentMetadata_parse_raw text = inl e ->
  upsert_file file (Some text) = upsert_file file None
  /\ forall w (s : state w),
       (exists calls o,
          run w s (upsert_file file (Some text))
          = (get_document_from_file file default_metadata :: calls, o))
       /\ forall (document : Document) s1 (ids : list string) s2,
            respond w (get_document_from_file file default_metadata) s = (inr document, s1) ->
            respond w (datastore_upsert [document]) s1 = (inr ids, s2) ->
            run w s (upsert_file file (Some text))
            = ([get_document_from_file file default_metadata; datastore_upsert [document]],
               Returned (UpsertResponse.mk ids)).
Proof.
  intros Hparse.
  assert (Heq : upsert_file file (Some text) = upsert_file file None).
  { unfold upsert_file. rewrite Hparse. destruct (truthy text); reflexivity. }
  split; [exact Heq|]. intros w s. rewrite Heq. split.
  - unfold upsert_file. simpl. fold default_metadata.
    destruct (respond w (get_document_from_file file default_metadata) s) as [a s1].
    match goal with |- context [run w s1 ?p] => destruct (run w s1 p) as [calls o] end.
    exists calls, o. reflexivity.
  - intros document s1 ids s2 Hdoc Hups.
    unfold upsert_file. simpl. fold default_metadata.
    rewrite Hdoc. simpl. rewrite Hups. reflexivity.
Qed.

(** *** Query *)

Lemma run_query (request : QueryRequest.t) w (s : state w) :
  let c := datastore_query request.(QueryRequest.queries) in
  run w s (query request)
  = match respond w c s with
    | (inr results, _) => ([c], Returned (QueryResponse.mk results))
    | (inl e, s') =>
        ([c; logger_error e],
         match (respond w (logger_error e) s').1 with
         | inr _ => Raised (HTTPException 500 "Internal Service Error")
         | inl e' => Raised e'
         end)
    end.
Proof.
  intros c. unfold query. simpl. fold c.
  answer_cases; reflexivity.
Qed.

(** C9. [POST /query] on [app] ([query_main]) and [POST /query] on
    [sub_app] ([query]) behave alike: the handlers are the same program, both
    routes sit behind the same token gate, and against every world both make
    the single datastore call [datastore.query(request.queries)] and end the
    same way: its results on success, a logged 500 when it raises. *)
Theorem query_main_equivalent_to_sub_query (request : QueryRequest.t) :
  query_main request = query request
  /\ (forall credentials,
        app environ credentials (POST_query request)
        = query_response <$> sub_app environ credentials request)
  /\ forall w (s : state w),
       let c := datastore_query request.(QueryRequest.queries) in
       run w s (query_main request) = run w s (query request)
       /\ datastore_calls (run w s (query request)).1 = [c]
       /\ (forall (results : list QueryResult) s',
             respond w c s = (inr results, s') ->
             run w s (query request) = ([c], Returned (QueryResponse.mk results)))
       /\ (forall e s' (u : unit) s'',
             respond w c s = (inl e, s') ->
             respond w (logger_error e) s' = (inr u, s'') ->
             run w s (query request)
             = ([c; logger_error e], Raised (HTTPException 500 "Internal Service Error"))).
Proof.
  split; [reflexivity|]. split.
  - intros credentials. unfold app, sub_app, validate_token.
    destruct (_ || _); reflexivity.
  - intros w s c. pose proof (run_query request w s) as Hrun.
    cbv zeta in Hrun. fold c in Hrun.
    split; [reflexivity|]. rewrite Hrun. split; [|split].
    + destruct (respond w c s) as [[e | results] s']; reflexivity.
    + intros results s' Hc. rewrite Hc. reflexivity.
    + intros e s' u s'' Hc Hlog. rewrite Hc, Hlog. reflexivity.
Qed.

(** *** The subscription exchange *)

(** [subscription], call by call. *)
Lemma run_subscription (request : SubscriptionRequest.t)
    (session_data : gmap string string) w (s : state w) :
  run w s (subscription environ request session_data)
  = match session_data !! "redirect_uri" with
    | None => ([], Raised TypeError_NoneType_plus_str)
    | Some redirect_uri =>
        match session_data !! "code_verifier" with
        | None => ([], Raised (KeyError "code_verifier"))
        | Some code_verifier =>
            let c1 := get_member_access_token request.(SubscriptionRequest.code)
                        code_verifier in
            match respond w c1 s with
            | (inl e, _) => ([c1], Raised e)
            | (inr tokens, s1) =>
                let c2 := wix_get_subscription (tokens : string * string).1 in
                match respond w c2 s1 with
                | (inl e, _) => ([c1; c2], Raised e)
                | (inr tier, _) =>
                    ([c1; c2],
                     Returned (if String.eqb tier "Elite"
                               then elite_response (redirect_url environ session_data redirect_uri)
                               else non_elite_response))
                end
            end
        end
    end.
Proof.
  unfold subscription, getitem, add.
  destruct (session_data !! "redirect_uri") as [redirect_uri|]; [|reflexivity].
  destruct (session_data !! "code_verifier") as [code_verifier|]; [|reflexivity].
  simpl.
  destruct (respond w _ s) as [[e | [token refresh]] s1]; simpl; [reflexivity|].
  destruct (respond w _ s1) as [[e | tier] s2]; simpl; [reflexivity|].
  unfold elite_response, non_elite_response, redirect_url.
  destruct (String.eqb tier "Elite"); reflexivity.
Qed.

(** C6. With [redirect_uri], [state] and [code_verifier] in the session, the
    issued code configured, and the two upstream calls returning: when the
    tier is [Elite] the response carries the URL
    [redirect_uri?state=<state>&code=<issued code>], the stored state as it
    is; for any other tier it carries the fallback URL and the non-elite
    message. *)
Theorem subscription_elite_url_embeds_state (request : SubscriptionRequest.t)
    (session_data : gmap string string) w (s : state w)
    (redirect_uri state code_verifier openai_code : string)
    (tokens : string * string) s1 (tier : string) s2 :
  session_data !! "redirect_uri" = Some redirect_uri ->
  session_data !! "state" = Some state ->
  session_data !! "code_verifier" = Some code_verifier ->
  environ !! "OPENAI_CODE" = Some openai_code ->
  respond w (get_member_access_token request.(SubscriptionRequest.code) code_verifier) s
    = (inr tokens, s1) ->
  respond w (wix_get_subscription tokens.1) s1 = (inr tier, s2) ->
  (tier = "Elite" ->
   (run w s (subscription environ request session_data)).2
   = Returned (JSONResponse.mk "You are an Elite member."
                 (redirect_uri +:+ "?state=" +:+ state +:+ "&code=" +:+ openai_code)))
  /\ (tier <> "Elite" ->
      (run w s (subscription environ request session_data)).2
      = Returned (JSONResponse.mk "You are not an Elite member." "https://www.kaiwu.info")).
Proof.
  intros Hr Hs Hv Hc Htok Hsub.
  rewrite run_subscription, Hr, Hv. cbv zeta. rewrite Htok, Hsub.
  unfold elite_response, non_elite_response, redirect_url. rewrite Hs, Hc. simpl.
  split.
  - intros ->. reflexivity.
  - intros Hne. apply String.eqb_neq in Hne. rewrite Hne. reflexivity.
Qed.

(** On any dict, written by the server or not: without [code_verifier] the
    exchange raises before any upstream call, [KeyError('code_verifier')]
    when [redirect_uri] is stored, and the [TypeError] of [None + str] when
    it is not. *)
Theorem subscription_without_code_verifier_raises (request : SubscriptionRequest.t)
    (session_data : gmap string string) w (s : state w) :
  session_data !! "code_verifier" = None ->
  run w s (subscription environ request session_data)
  = ([], Raised (match session_data !! "redirect_uri" with
                 | Some _ => KeyError "code_verifier"
                 | None => TypeError_NoneType_plus_str
                 end)).
Proof.
  intros Hv. rewrite run_subscription, Hv.
  destruct (session_data !! "redirect_uri"); reflexivity.
Qed.

(** On a dict that holds [redirect_uri] and [code_verifier] but no [state],
    both upstream calls are made, and the text [None] takes the place of the
    state in the URL of the Elite response. *)
Lemma subscription_without_state_proceeds (request : SubscriptionRequest.t)
    (session_data : gmap string string) w (s : state w)
    (redirect_uri code_verifier : string) (tokens : string * string) s1 s2 :
  session_data !! "state" = None ->
  session_data !! "redirect_uri" = Some redirect_uri ->
  session_data !! "code_verifier" = Some code_verifier ->
  respond w (get_member_access_token request.(SubscriptionRequest.code) code_verifier) s
    = (inr tokens, s1) ->
  respond w (wix_get_subscription tokens.1) s1 = (inr "Elite", s2) ->
  run w s (subscription environ request session_data)
  = ([get_member_access_token request.(SubscriptionRequest.code) code_verifier;
      wix_get_subscription tokens.1],
     Returned (JSONResponse.mk "You are an Elite member."
                 (redirect_uri +:+ "?state=None&code="
                  +:+ Py.format (environ !! "OPENAI_CODE")))).
Proof.
  intros Hs Hr Hv Htok Hsub.
  rewrite run_subscription, Hr, Hv. cbv zeta. rewrite Htok, Hsub.
  unfold elite_response, redirect_url. rewrite Hs. reflexivity.
Qed.

(** *** Datastore exceptions *)

Lemma run_upsert (request : UpsertRequest.t) w (s : state w) :
  let c := datastore_upsert request.(UpsertRequest.documents) in
  run w s (upsert request)
  = match respond w c s with
    | (inr ids, _) => ([c], Returned (UpsertResponse.mk ids))
    | (inl e, s') =>
        ([c; logger_error e],
         match (respond w (logger_error e) s').1 with
         | inr _ => Raised (HTTPException 500 "Internal Service Error")
         | inl e' => Raised e'
         end)
    end.
Proof.
  intros c. unfold upsert. simpl. fold c.
  answer_cases; reflexivity.
Qed.

(** [upsert_file], call by call. *)
Lemma run_upsert_file (file : UploadFile) (metadata : option string) w (s : state w) :
  let c1 := get_document_from_file file (metadata_obj metadata) in
  run w s (upsert_file file metadata)
  = match respond w c1 s with
    | (inl e, _) => ([c1], Raised e)
    | (inr document, s1) =>
        let c2 := datastore_upsert [document : Document] in
        match respond w c2 s1 with
        | (inr ids, _) => ([c1; c2], Returned (UpsertResponse.mk ids))
        | (inl e, s2) =>
            ([c1; c2; logger_error e],
             match (respond w (logger_error e) s2).1 with
             | inr _ => Raised (HTTPException 500 ("str(" +:+ str e +:+ ")"))
             | inl e' => Raised e'
             end)
        end
    end.
Proof.
  intros c1. subst c1.
  assert (Hobj : forall k : DocumentMetadata -> prog UpsertResponse.t,
             bind (try_except
                (match metadata with
                 | Some text =>
                     if truthy text
                     then match DocumentMetadata_parse_raw text with
                          | inl e => Raise e
                          | inr parsed => Return parsed
                          end
                     else Return (DocumentMetadata_of_source Source_file)
                 | None => Return (DocumentMetadata_of_source Source_file)
                 end)
                (fun _ => Return (DocumentMetadata_of_source Source_file))) k
             = k (metadata_obj metadata)).
  { intros k. unfold metadata_obj, default_metadata.
    destruct metadata as [text|]; [|reflexivity].
    destruct (truthy text); [|reflexivity].
    destruct (DocumentMetadata_parse_raw text); reflexivity. }
  unfold upsert_file, mbind, prog_bind. rewrite Hobj. simpl.
  answer_cases; reflexivity.
Qed.

(** In [upsert], [query_main], [query] and [delete], an exception of the
    datastore call is logged and answered with 500 and the fixed detail
    [Internal Service Error]. *)
Theorem datastore_exception_is_generic_500 w (s : state w) (e : Exception)
    s1 (u : unit) s2 :
  (forall request : UpsertRequest.t,
     let c := datastore_upsert request.(UpsertRequest.documents) in
     respond w c s = (inl e, s1) ->
     respond w (logger_error e) s1 = (inr u, s2) ->
     run w s (upsert request)
     = ([c; logger_error e], Raised (HTTPException 500 "Internal Service Error")))
  /\ (forall request : QueryRequest.t,
        let c := datastore_query request.(QueryRequest.queries) in
        respond w c s = (inl e, s1) ->
        respond w (logger_error e) s1 = (inr u, s2) ->
        run w s (query_main request)
        = ([c; logger_error e], Raised (HTTPException 500 "Internal Service Error"))
        /\ run w s (query request)
           = ([c; logger_error e], Raised (HTTPException 500 "Internal Service Error")))
  /\ (forall request : DeleteRequest.t,
        let c := datastore_delete request.(DeleteRequest.ids)
                   request.(DeleteRequest.filter) request.(DeleteRequest.delete_all) in
        truthy request.(DeleteRequest.ids)
        || truthy request.(DeleteRequest.filter)
        || truthy request.(DeleteRequest.delete_all) = true ->
        respond w c s = (inl e, s1) ->
        respond w (logger_error e) s1 = (inr u, s2) ->
        run w s (delete request)
        = ([c; logger_error e], Raised (HTTPException 500 "Internal Service Error"))).
Proof.
  split; [|split].
  - intros request c Hc Hlog.
    pose proof (run_upsert request w s) as Hrun. cbv zeta in Hrun. fold c in Hrun.
    rewrite Hrun, Hc, Hlog. reflexivity.
  - intros request c Hc Hlog.
    pose proof (run_query request w s) as Hrun. cbv zeta in Hrun. fold c in Hrun.
    change (query_main request) with (query request).
    rewrite Hrun, Hc, Hlog. split; reflexivity.
  - intros request c Ht Hc Hlog.
    pose proof (run_delete_truthy request w s Ht) as Hrun. cbv zeta in Hrun. fold c in Hrun.
    rewrite Hrun, Hc, Hlog. reflexivity.
Qed.

(** In [upsert_file] the detail of the 500 is not fixed: it is the text
    [str(...)] around [str(e)] of the datastore's exception. *)
Lemma upsert_file_500_detail (file : UploadFile) (metadata : option string)
    w (s : state w) (document : Document) s1 (e : Exception) s2 (u : unit) s3 :
  respond w (get_document_from_file file (metadata_obj metadata)) s = (inr document, s1) ->
  respond w (datastore_upsert [document]) s1 = (inl e, s2) ->
  respond w (logger_error e) s2 = (inr u, s3) ->
  (run w s (upsert_file file metadata)).2
  = Raised (HTTPException 500 ("str(" +:+ str e +:+ ")")).
Proof.
  intros Hdoc Hups Hlog.
  pose proof (run_upsert_file file metadata w s) as Hrun. cbv zeta in Hrun.
  rewrite Hrun, Hdoc, Hups, Hlog. reflexivity.
Qed.

(** When the [metadata] form string is non-empty and parses, the parsed
    value is what [get_document_from_file] receives. *)
Theorem upsert_file_parsed_metadata_is_used (file : UploadFile) (text : string)
    (parsed : DocumentMetadata) w (s : state w) :
  truthy text = true ->
  DocumentMetadata_parse_raw text = inr parsed ->
  exists calls o,
    run w s (upsert_file file (Some text))
    = (get_document_from_file file parsed :: calls, o).
Proof.
  intros Ht Hparse.
  pose proof (run_upsert_file file (Some text) w s) as Hrun. cbv zeta in Hrun.
  assert (Hobj : metadata_obj (Some text) = parsed).
  { unfold metadata_obj. rewrite Ht, Hparse. reflexivity. }
  rewrite Hobj in Hrun. rewrite Hrun.
  destruct (respond w _ s) as [[e | document] s1]; [eauto|].
  destruct (respond w _ s1) as [[e | ids] s2]; eauto.
Qed.

(** *** The token gate, the login step *)

(** Credentials with the scheme [Bearer] and the configured token pass the
    gate: the request is handled by its route's handler. *)
Theorem valid_token_reaches_handler credentials (r : app_request) (body : QueryRequest.t) :
  credentials.(HTTPAuthorizationCredentials.scheme) = "Bearer" ->
  BEARER_TOKEN environ = Some credentials.(HTTPAuthorizationCredentials.credentials) ->
  app environ credentials r = app_route r
  /\ sub_app environ credentials body = query body.
Proof.
  intros Hs Ht. unfold app, sub_app.
  rewrite (validate_token_accepts credentials Hs Ht). split; reflexivity.
Qed.

Lemma login_lookup_state
    (response_type client_id scope state redirect_uri : string)
    (session_data : gmap string string) :
  (login (get_oauth_params response_type client_id scope state redirect_uri)
     session_data).1 !! "state" = Some state.
Proof.
  unfold login, get_oauth_params. simpl.
  apply lookup_union_Some_l. simplify_map_eq. reflexivity.
Qed.

(** [GET /oauth/login/] stores the five parameters of the authorization
    request as they came, and leaves every other key of the session alone. *)
Theorem login_stores_oauth_params
    (response_type client_id scope state redirect_uri : string)
    (session_data : gmap string string) :
  let session' :=
    (login (get_oauth_params response_type client_id scope state redirect_uri)
       session_data).1 in
  session' !! "response_type" = Some response_type
  /\ session' !! "client_id" = Some client_id
  /\ session' !! "scope" = Some scope
  /\ session' !! "state" = Some state
  /\ session' !! "redirect_uri" = Some redirect_uri
  /\ forall key,
       key <> "response_type" -> key <> "client_id" -> key <> "scope" ->
       key <> "state" -> key <> "redirect_uri" ->
       session' !! key = session_data !! key.
Proof.
  cbv zeta. unfold login, get_oauth_params. simpl.
  repeat split.
  1-5: apply lookup_union_Some_l; simplify_map_eq; reflexivity.
  intros key H1 H2 H3 H4 H5.
  apply lookup_union_r. simplify_map_eq. reflexivity.
Qed.

End Properties.

(** ** The statements at the concrete instance *)

(** The scheme [bearer] passes [HTTPBearer] and is not [Bearer]. *)
Lemma invalid_token_is_401_before_handler_witness :
  HTTPAuthorizationCredentials.scheme Demo.lowercase_credentials <> "Bearer"
  /\ run Demo.healthy tt
       (app Demo.environ Demo.lowercase_credentials (DELETE_delete Demo.delete_one))
     = ([], Raised (HTTPException 401 "Invalid or missing token"))
  /\ run Demo.healthy tt
       (sub_app Demo.environ Demo.lowercase_credentials Demo.query_request)
     = ([], Raised (HTTPException 401 "Invalid or missing token")).
Proof.
  assert (Hscheme : HTTPAuthorizationCredentials.scheme Demo.lowercase_credentials
                    <> "Bearer") by discriminate.
  split; [exact Hscheme|].
  destruct (invalid_token_is_401_before_handler Demo.environ Demo.lowercase_credentials
              (DELETE_delete Demo.delete_one) Demo.query_request (or_introl Hscheme))
    as (_ & _ & Hrun).
  apply (Hrun Demo.healthy tt).
Defined.

Lemma delete_all_absent_is_400_witness :
  DeleteRequest.ids Demo.delete_nothing = None
  /\ DeleteRequest.filter Demo.delete_nothing = None
  /\ DeleteRequest.delete_all Demo.delete_nothing = None
  /\ run Demo.healthy tt (delete Demo.delete_nothing)
     = ([], Raised (HTTPException 400 "One of ids, filter, or delete_all is required")).
Proof.
  split; [reflexivity|]. split; [reflexivity|]. split; [reflexivity|].
  apply (proj2 (delete_all_absent_is_400 Demo.delete_nothing eq_refl eq_refl eq_refl)
           Demo.healthy tt).
Defined.

Lemma delete_falsy_criteria_is_400_witness :
  DeleteRequest.ids Demo.delete_falsy = Some []
  /\ DeleteRequest.delete_all Demo.delete_falsy = Some false
  /\ run Demo.healthy tt (delete Demo.delete_falsy)
     = ([], Raised (HTTPException 400 "One of ids, filter, or delete_all is required")).
Proof.
  split; [reflexivity|]. split; [reflexivity|].
  assert (Hids : absent_or_falsy (DeleteRequest.ids Demo.delete_falsy)).
  { right. exists []. split; reflexivity. }
  assert (Hfilter : absent_or_falsy (DeleteRequest.filter Demo.delete_falsy)).
  { left. reflexivity. }
  assert (Hall : absent_or_falsy (DeleteRequest.delete_all Demo.delete_falsy)).
  { right. exists false. split; reflexivity. }
  apply (proj2 (delete_falsy_criteria_is_400 Demo.delete_falsy Hids Hfilter Hall)
           Demo.healthy tt).
Defined.

(** C4, presence alone: [{"ids": []}] has [ids] present, and the request is
    answered with 400 without any call to the datastore. *)
Lemma delete_present_empty_ids_makes_no_call :
  DeleteRequest.ids Demo.delete_empty_ids = Some []
  /\ run Demo.healthy tt (delete Demo.delete_empty_ids)
     = ([], Raised (HTTPException 400 "One of ids, filter, or delete_all is required"))
  /\ datastore_calls (run Demo.healthy tt (delete Demo.delete_empty_ids)).1
     <> [datastore_delete (Some []) None None].
Proof.
  split; [reflexivity|]. split; [reflexivity|]. discriminate.
Qed.

Lemma delete_truthy_calls_datastore_once_witness :
  present_and_truthy (DeleteRequest.ids Demo.delete_one)
  /\ datastore_calls (run Demo.healthy tt (delete Demo.delete_one)).1
     = [datastore_delete (Some ["doc-1"]) None None]
  /\ run Demo.healthy tt (delete Demo.delete_one)
     = ([datastore_delete (Some ["doc-1"]) None None],
        Returned (DeleteResponse.mk true)).
Proof.
  assert (Hids : present_and_truthy (DeleteRequest.ids Demo.delete_one)).
  { exists ["doc-1"]. split; reflexivity. }
  split; [exact Hids|].
  destruct (delete_truthy_calls_datastore_once Demo.delete_one Demo.healthy tt
              (or_introl Hids)) as [Hcalls Hret].
  split; [exact Hcalls|]. apply (Hret true tt). reflexivity.
Defined.

Lemma upsert_file_unparseable_metadata_uses_default_witness :
  @DocumentMetadata_parse_raw Demo.models "{source:"
  = inl (Error "ValidationError" "1 validation error for DocumentMetadata")
  /\ upsert_file Demo.notes (Some "{source:")
     = upsert_file Demo.notes None
  /\ run Demo.healthy tt (upsert_file Demo.notes (Some "{source:"))
     = ([get_document_from_file Demo.notes (Some "file"); @datastore_upsert Demo.models ["notes.txt"]],
        Returned (UpsertResponse.mk ["doc-1"])).
Proof.
  split; [reflexivity|].
  destruct (upsert_file_unparseable_metadata_uses_default
              Demo.notes "{source:"
              (Error "ValidationError" "1 validation error for DocumentMetadata")
              eq_refl) as [Heq Hrun].
  split; [exact Heq|].
  destruct (Hrun Demo.healthy tt) as [_ Hok].
  apply (Hok Demo.notes tt ["doc-1"] tt); reflexivity.
Defined.

Lemma subscription_elite_url_embeds_state_witness :
  Demo.session_complete !! "state" = Some "xyz"
  /\ (run Demo.healthy tt
        (subscription Demo.environ Demo.subscription_request Demo.session_complete)).2
     = Returned
         (JSONResponse.mk "You are an Elite member."
            "https://chat.openai.com/aip/plugin/oauth/callback?state=xyz&code=issued-code").
Proof.
  split; [vm_compute; reflexivity|].
  apply (subscription_elite_url_embeds_state Demo.environ Demo.subscription_request
           Demo.session_complete Demo.healthy tt
           "https://chat.openai.com/aip/plugin/oauth/callback" "xyz" "verifier"
           "issued-code" ("member-token", "refresh-token") tt "Elite" tt);
    vm_compute; reflexivity.
Defined.

(** On a dict that holds [redirect_uri] and [code_verifier] but no [state]
    (no sequence of requests writes such a session, see [server_written]),
    the exchange is carried out and the URL holds the text [None] for the
    state. *)
Lemma subscription_without_state_completes :
  Demo.session_without_state !! "state" = None
  /\ run Demo.healthy tt
       (subscription Demo.environ Demo.subscription_request Demo.session_without_state)
     = ([get_member_access_token "wix-code" "verifier";
         wix_get_subscription "member-token"],
        Returned
          (JSONResponse.mk "You are an Elite member."
             "https://chat.openai.com/aip/plugin/oauth/callback?state=None&code=issued-code")).
Proof.
  split; vm_compute; reflexivity.
Qed.

Lemma subscription_without_code_verifier_raises_witness :
  Demo.session_without_code_verifier !! "code_verifier" = None
  /\ run Demo.healthy tt
       (subscription Demo.environ Demo.subscription_request
          Demo.session_without_code_verifier)
     = ([], Raised (KeyError "code_verifier")).
Proof.
  assert (Hv : Demo.session_without_code_verifier !! "code_verifier" = None)
    by (vm_compute; reflexivity).
  split; [exact Hv|].
  rewrite (subscription_without_code_verifier_raises Demo.environ
             Demo.subscription_request Demo.session_without_code_verifier
             Demo.healthy tt Hv).
  vm_compute. reflexivity.
Defined.

(** C8 fails on [upsert_file]: when [datastore.upsert] raises, the detail of
    the 500 is built from the exception's own text, here the address of the
    datastore. *)
Example upsert_file_500_detail_carries_exception_text :
  run Demo.datastore_down tt (upsert_file Demo.notes None)
  = ([get_document_from_file Demo.notes (Some "file");
      @datastore_upsert Demo.models ["notes.txt"];
      logger_error (Error "ConnectionError" "connection to 10.0.0.5:6333 refused")],
     Raised (HTTPException 500 "str(connection to 10.0.0.5:6333 refused)")).
Proof. vm_compute. reflexivity. Qed.

(** The same failure through [upsert] carries the fixed detail. *)
Example upsert_500_detail_is_fixed :
  run Demo.datastore_down tt (upsert (@UpsertRequest.mk Demo.models ["notes.txt"]))
  = ([@datastore_upsert Demo.models ["notes.txt"];
      logger_error (Error "ConnectionError" "connection to 10.0.0.5:6333 refused")],
     Raised (HTTPException 500 "Internal Service Error")).
Proof. vm_compute. reflexivity. Qed.

(** [POST /query] with a valid token and the query [hello], against a
    datastore that returns one empty result set for it. *)
Example query_hello_end_to_end :
  run Demo.healthy tt
    (app Demo.environ (HTTPAuthorizationCredentials.mk "Bearer" "bearer-secret")
       (POST_query Demo.query_request))
  = ([@datastore_query Demo.models ["hello"]],
     Returned (query_response (@QueryResponse.mk Demo.models [("hello", [])]))).
Proof. vm_compute. reflexivity. Qed.

Lemma valid_token_reaches_handler_witness :
  app Demo.environ (HTTPAuthorizationCredentials.mk "Bearer" "bearer-secret")
    (POST_query Demo.query_request)
  = app_route (POST_query Demo.query_request).
Proof.
  apply (proj1 (valid_token_reaches_handler Demo.environ
                  (HTTPAuthorizationCredentials.mk "Bearer" "bearer-secret")
                  (POST_query Demo.query_request) Demo.query_request
                  eq_refl eq_refl)).
Defined.

Lemma upsert_file_parsed_metadata_is_used_witness :
  exists calls o,
    run Demo.healthy tt (upsert_file Demo.notes (Some "{}"))
    = (@get_document_from_file Demo.models Demo.notes None :: calls, o).
Proof.
  apply (upsert_file_parsed_metadata_is_used Demo.notes "{}" None Demo.healthy tt
           eq_refl eq_refl).
Defined.


(** ** Further properties of the server *)

Section OAuthFlow.
Context `{M : Models}.
Variable environ : gmap string string.
Variable wix_get_callback_url :
  string -> string -> option string -> Exception + (string * string).

(** What [login_post] leaves in the session when the identity provider
    accepts the login. *)
Lemma login_post_session_accepted (username password : string)
    (session_data : gmap string string) (wix_callback_url code_verifier : string) :
  wix_get_callback_url username password (session_data !! "state")
    = inr (wix_callback_url, code_verifier) ->
  login_post wix_get_callback_url username password session_data
  = (<["code_verifier" := code_verifier]>
       (<["wix_callback_url" := wix_callback_url]> session_data),
     inr (HTTPRedirect.mk 303 {[ "Location" := "../callback/" ]})).
Proof. intros H. unfold login_post. rewrite H. reflexivity. Qed.

(** [login] leaves alone the keys it does not store. *)
Lemma login_lookup_other (response_type client_id scope state redirect_uri : string)
    (session_data : gmap string string) (key : string) :
  key <> "response_type" -> key <> "client_id" -> key <> "scope" ->
  key <> "state" -> key <> "redirect_uri" ->
  (login (get_oauth_params response_type client_id scope state redirect_uri)
     session_data).1 !! key = session_data !! key.
Proof.
  intros H1 H2 H3 H4 H5. unfold login, get_oauth_params. simpl.
  apply lookup_union_r. simplify_map_eq. reflexivity.
Qed.

Lemma login_lookup_redirect_uri
    (response_type client_id scope state redirect_uri : string)
    (session_data : gmap string string) :
  (login (get_oauth_params response_type client_id scope state redirect_uri)
     session_data).1 !! "redirect_uri" = Some redirect_uri.
Proof.
  unfold login, get_oauth_params. simpl.
  apply lookup_union_Some_l. simplify_map_eq. reflexivity.
Qed.

(** [POST /oauth/login/], accepted by the identity provider: the session
    gains the callback URL and the PKCE verifier it returned and keeps every
    other key; the handler raises a 303 to [../callback/]; and
    [GET /oauth/callback/] on that session renders the callback URL. *)
Theorem login_post_stores_upstream_values (username password : string)
    (session_data : gmap string string) (wix_callback_url code_verifier : string) :
  wix_get_callback_url username password (session_data !! "state")
    = inr (wix_callback_url, code_verifier) ->
  let after := login_post wix_get_callback_url username password session_data in
  after.1 !! "wix_callback_url" = Some wix_callback_url
  /\ after.1 !! "code_verifier" = Some code_verifier
  /\ (forall key, key <> "wix_callback_url" -> key <> "code_verifier" ->
        after.1 !! key = session_data !! key)
  /\ after.2 = inr (HTTPRedirect.mk 303 {[ "Location" := "../callback/" ]})
  /\ callback after.1 = TemplateResponse.mk "callback.html" (Some wix_callback_url).
Proof.
  intros H after. subst after.
  rewrite (login_post_session_accepted _ _ _ _ _ H). simpl.
  assert (Hurl : (<["code_verifier" := code_verifier]>
                    (<["wix_callback_url" := wix_callback_url]> session_data)
                  : gmap string string) !! "wix_callback_url" = Some wix_callback_url).
  { rewrite lookup_insert_ne by discriminate. apply lookup_insert_eq. }
  split; [exact Hurl|]. split; [apply lookup_insert_eq|]. split; [|split].
  - intros key H1 H2. rewrite !lookup_insert_ne by congruence. reflexivity.
  - reflexivity.
  - unfold callback. rewrite Hurl. reflexivity.
Qed.

(** The three steps in order.  After [GET /oauth/login/] with the request's
    parameters and an accepted [POST /oauth/login/], the identity provider
    has been given the request's [state]; [POST /oauth/callback/] exchanges
    the code with the verifier the provider returned at login, and for an
    Elite member answers with the request's [redirect_uri] followed by the
    request's [state] and the issued code. *)
Theorem oauth_flow_echoes_state_and_verifier
    (w : World) (s s1 s2 : state w)
    (response_type client_id scope state redirect_uri username password : string)
    (session0 : gmap string string) (wix_callback_url code_verifier : string)
    (request : SubscriptionRequest.t) (tokens : string * string) :
  let session1 :=
    (login (get_oauth_params response_type client_id scope state redirect_uri)
       session0).1 in
  let session2 := (login_post wix_get_callback_url username password session1).1 in
  wix_get_callback_url username password (Some state)
    = inr (wix_callback_url, code_verifier) ->
  respond w (get_member_access_token request.(SubscriptionRequest.code) code_verifier) s
    = (inr tokens, s1) ->
  respond w (wix_get_subscription tokens.1) s1 = (inr "Elite", s2) ->
  run w s (subscription environ request session2)
  = ([get_member_access_token request.(SubscriptionRequest.code) code_verifier;
      wix_get_subscription tokens.1],
     Returned (JSONResponse.mk "You are an Elite member."
                 (redirect_uri +:+ "?state=" +:+ state +:+ "&code="
                  +:+ Py.format (environ !! "OPENAI_CODE")))).
Proof.
  intros session1 session2 Hwix Htok Hsub.
  assert (Hstate1 : session1 !! "state" = Some state) by apply login_lookup_state.
  assert (Huri1 : session1 !! "redirect_uri" = Some redirect_uri)
    by apply login_lookup_redirect_uri.
  rewrite <- Hstate1 in Hwix.
  assert (Hsession2 : session2
                      = <["code_verifier" := code_verifier]>
                          (<["wix_callback_url" := wix_callback_url]> session1)).
  { unfold session2. rewrite (login_post_session_accepted _ _ _ _ _ Hwix). reflexivity. }
  assert (Hcv : session2 !! "code_verifier" = Some code_verifier).
  { rewrite Hsession2. apply lookup_insert_eq. }
  assert (Hstate2 : session2 !! "state" = Some state).
  { rewrite Hsession2, !lookup_insert_ne by discriminate. exact Hstate1. }
  assert (Huri2 : session2 !! "redirect_uri" = Some redirect_uri).
  { rewrite Hsession2, !lookup_insert_ne by discriminate. exact Huri1. }
  rewrite run_subscription, Huri2, Hcv. cbv zeta. rewrite Htok, Hsub.
  unfold elite_response, redirect_url. rewrite Hstate2. reflexivity.
Qed.

(** Without an accepted [POST /oauth/login/] the callback step cannot be
    completed.  On a session that holds no earlier verifier or callback URL:
    a login the identity provider refuses leaves the session as
    [GET /oauth/login/] left it and propagates the provider's exception;
    [GET /oauth/callback/] on that session renders no URL; and
    [POST /oauth/callback/] raises [KeyError('code_verifier')] before any
    upstream call. *)
Theorem callback_needs_accepted_login
    (w : World) (s : state w)
    (response_type client_id scope state redirect_uri username password : string)
    (session0 : gmap string string) (e : Exception) (request : SubscriptionRequest.t) :
  let session1 :=
    (login (get_oauth_params response_type client_id scope state redirect_uri)
       session0).1 in
  session0 !! "code_verifier" = None ->
  session0 !! "wix_callback_url" = None ->
  wix_get_callback_url username password (Some state) = inl e ->
  login_post wix_get_callback_url username password session1 = (session1, inl e)
  /\ callback session1 = TemplateResponse.mk "callback.html" None
  /\ run w s (subscription environ request session1)
     = ([], Raised (KeyError "code_verifier")).
Proof.
  intros session1 Hcv Hurl Hwix.
  assert (Hstate1 : session1 !! "state" = Some state) by apply login_lookup_state.
  assert (Huri1 : session1 !! "redirect_uri" = Some redirect_uri)
    by apply login_lookup_redirect_uri.
  assert (Hcv1 : session1 !! "code_verifier" = None).
  { unfold session1. rewrite login_lookup_other by discriminate. exact Hcv. }
  assert (Hurl1 : session1 !! "wix_callback_url" = None).
  { unfold session1. rewrite login_lookup_other by discriminate. exact Hurl. }
  split; [|split].
  - unfold login_post. rewrite Hstate1, Hwix. reflexivity.
  - unfold callback. rewrite Hurl1. reflexivity.
  - rewrite run_subscription, Huri1, Hcv1. reflexivity.
Qed.

(** A second [GET /oauth/login/] replaces what the first one stored: the
    session is as if only the second request had been made. *)
Theorem login_again_replaces_parameters
    (response_type client_id scope state redirect_uri : string)
    (response_type' client_id' scope' state' redirect_uri' : string)
    (session_data : gmap string string) :
  (login (get_oauth_params response_type' client_id' scope' state' redirect_uri')
     (login (get_oauth_params response_type client_id scope state redirect_uri)
        session_data).1).1
  = (login (get_oauth_params response_type' client_id' scope' state' redirect_uri')
       session_data).1.
Proof.
  unfold login, get_oauth_params. simpl. apply map_eq. intros key.
  rewrite !lookup_union.
  destruct (decide (key = "response_type")) as [->|H1];
    [simplify_map_eq; destruct (session_data !! _); reflexivity|].
  destruct (decide (key = "client_id")) as [->|H2];
    [simplify_map_eq; destruct (session_data !! _); reflexivity|].
  destruct (decide (key = "scope")) as [->|H3];
    [simplify_map_eq; destruct (session_data !! _); reflexivity|].
  destruct (decide (key = "state")) as [->|H4];
    [simplify_map_eq; destruct (session_data !! _); reflexivity|].
  destruct (decide (key = "redirect_uri")) as [->|H5];
    [simplify_map_eq; destruct (session_data !! _); reflexivity|].
  simplify_map_eq. destruct (session_data !! key); reflexivity.
Qed.

End OAuthFlow.

Section GatedRoutes.
Context `{M : Models}.
Variable environ : gmap string string.

Ltac split_answers :=
  repeat match goal with
    | |- context [respond ?w ?c ?s] =>
        let e := fresh "e" in
        let x := fresh "x" in
        let s' := fresh "s" in
        destruct (respond w c s) as [[e | x] s']; simpl
    | H : context [respond ?w ?c ?s] |- _ =>
        let e := fresh "e" in
        let x := fresh "x" in
        let s' := fresh "s" in
        destruct (respond w c s) as [[e | x] s']; simpl in H
    end.

(** Mapping over the result of a program changes neither its calls nor
    whether it raises. *)
Lemma run_fmap {A B} (f : A -> B) (p : prog A) (w : World) (s : state w) :
  run w s (f <$> p)
  = ((run w s p).1,
     match (run w s p).2 with
     | Returned a => Returned (f a)
     | Raised e => Raised e
     end).
Proof.
  revert s. induction p as [a | e | c k IH]; intros s; try reflexivity.
  change (f <$> Call c k) with (Call c (fun a => f <$> k a)).
  simpl. destruct (respond w c s) as [a s']. rewrite IH.
  destruct (run w s' (k a)) as [calls o]. reflexivity.
Qed.

(** The gate decides and, when it lets the request through, adds nothing. *)
Lemma run_app (credentials : HTTPAuthorizationCredentials.t) (r : app_request)
    (w : World) (s : state w) :
  run w s (app environ credentials r)
  = if negb (String.eqb credentials.(HTTPAuthorizationCredentials.scheme) "Bearer")
       || Py.ne credentials.(HTTPAuthorizationCredentials.credentials)
            (BEARER_TOKEN environ)
    then ([], Raised (HTTPException 401 "Invalid or missing token"))
    else run w s (app_route r).
Proof. unfold app, validate_token. destruct (_ || _); reflexivity. Qed.

(** The calls of a route of [app], whatever the world answers: none or one
    is to the datastore, and that one is the call of the route. *)
Lemma app_route_datastore_calls (r : app_request) (w : World) (s : state w) :
  datastore_calls (run w s (app_route r)).1 = []
  \/ exists c, datastore_calls (run w s (app_route r)).1 = [c]
               /\ route_datastore_call r c.
Proof.
  destruct r as [file metadata | body | body | body]; unfold app_route;
    rewrite run_fmap; cbn [fst].
  - pose proof (run_upsert_file file metadata w s) as Hrun. cbv zeta in Hrun.
    rewrite Hrun. clear Hrun. split_answers; try (left; reflexivity);
      right; eexists; (split; [reflexivity | eexists; reflexivity]).
  - pose proof (run_upsert body w s) as Hrun. cbv zeta in Hrun.
    rewrite Hrun. clear Hrun. split_answers;
      right; eexists; (split; reflexivity).
  - change (query_main body) with (query body).
    pose proof (run_query body w s) as Hrun. cbv zeta in Hrun.
    rewrite Hrun. clear Hrun. split_answers;
      right; eexists; (split; reflexivity).
  - destruct (truthy body.(DeleteRequest.ids)
              || truthy body.(DeleteRequest.filter)
              || truthy body.(DeleteRequest.delete_all)) eqn:Ht.
    + pose proof (run_delete_truthy body w s Ht) as Hrun. cbv zeta in Hrun.
      rewrite Hrun. clear Hrun. split_answers;
        right; eexists; (split; reflexivity).
    + left. unfold delete. rewrite Ht. reflexivity.
Qed.

(** A request to [app], with any credentials and against any world, makes
    at most one datastore call, and only the one its route is for: a query
    never upserts or deletes, a delete never upserts or queries. *)
Theorem app_makes_at_most_its_datastore_call
    (credentials : HTTPAuthorizationCredentials.t) (r : app_request)
    (w : World) (s : state w) :
  datastore_calls (run w s (app environ credentials r)).1 = []
  \/ exists c, datastore_calls (run w s (app environ credentials r)).1 = [c]
               /\ route_datastore_call r c.
Proof.
  rewrite run_app. destruct (_ || _).
  - left. reflexivity.
  - apply app_route_datastore_calls.
Qed.

(** A route of [app] that returns a response has made its datastore call,
    exactly once, and has logged nothing. *)
Lemma app_route_success (r : app_request) (w : World) (s : state w)
    (response : app_response) :
  (run w s (app_route r)).2 = Returned response ->
  (exists c, datastore_calls (run w s (app_route r)).1 = [c]
             /\ route_datastore_call r c)
  /\ List.filter is_logger_call (run w s (app_route r)).1 = [].
Proof.
  destruct r as [file metadata | body | body | body]; unfold app_route;
    rewrite run_fmap; cbn [fst snd]; intros H.
  - pose proof (run_upsert_file file metadata w s) as Hrun. cbv zeta in Hrun.
    rewrite Hrun in H |- *. clear Hrun.
    split_answers; cbn in H; try discriminate H.
    split; [|reflexivity]. eexists. split; [reflexivity|]. eexists. reflexivity.
  - pose proof (run_upsert body w s) as Hrun. cbv zeta in Hrun.
    rewrite Hrun in H |- *. clear Hrun.
    split_answers; cbn in H; try discriminate H.
    split; [|reflexivity]. eexists. split; reflexivity.
  - change (query_main body) with (query body) in H |- *.
    pose proof (run_query body w s) as Hrun. cbv zeta in Hrun.
    rewrite Hrun in H |- *. clear Hrun.
    split_answers; cbn in H; try discriminate H.
    split; [|reflexivity]. eexists. split; reflexivity.
  - destruct (truthy body.(DeleteRequest.ids)
              || truthy body.(DeleteRequest.filter)
              || truthy body.(DeleteRequest.delete_all)) eqn:Ht.
    + pose proof (run_delete_truthy body w s Ht) as Hrun. cbv zeta in Hrun.
      rewrite Hrun in H |- *. clear Hrun.
      split_answers; cbn in H; try discriminate H.
      split; [|reflexivity]. eexists. split; reflexivity.
    + unfold delete in H. rewrite Ht in H. discriminate H.
Qed.

(** A request to [app] is answered with a response only if its credentials
    had the scheme [Bearer] and the configured token, and then the response
    rests on exactly one datastore call, the one of its route, with nothing
    logged: no route answers from anything but the datastore. *)
Theorem app_response_needs_token_and_datastore
    (credentials : HTTPAuthorizationCredentials.t) (r : app_request)
    (w : World) (s : state w) (response : app_response) :
  (run w s (app environ credentials r)).2 = Returned response ->
  credentials.(HTTPAuthorizationCredentials.scheme) = "Bearer"
  /\ BEARER_TOKEN environ = Some credentials.(HTTPAuthorizationCredentials.credentials)
  /\ (exists c, datastore_calls (run w s (app environ credentials r)).1 = [c]
                /\ route_datastore_call r c)
  /\ List.filter is_logger_call (run w s (app environ credentials r)).1 = [].
Proof.
  rewrite run_app.
  destruct (negb _ || _) eqn:Hgate; intros H; [discriminate H|].
  apply orb_false_iff in Hgate as [Hscheme Htoken].
  apply negb_false_iff, String.eqb_eq in Hscheme.
  apply ne_false_iff in Htoken.
  split; [exact Hscheme|]. split; [exact Htoken|].
  apply (app_route_success r w s response H).
Qed.

(** *** Exceptions that are not the datastore's *)

(** An exception of [get_document_from_file] is outside the [try] of
    [upsert_file]: it propagates as it is, nothing is logged and the
    datastore is not called. *)
Theorem upsert_file_extractor_exception_propagates (file : UploadFile)
    (metadata : option string) (w : World) (s : state w) (e : Exception) s1 :
  respond w (get_document_from_file file (metadata_obj metadata)) s = (inl e, s1) ->
  run w s (upsert_file file metadata)
  = ([get_document_from_file file (metadata_obj metadata)], Raised e).
Proof.
  intros H. pose proof (run_upsert_file file metadata w s) as Hrun.
  cbv zeta in Hrun. rewrite Hrun, H. reflexivity.
Qed.

(** An empty [metadata] string is not parsed: the request is handled as one
    without the field, whatever [parse_raw] would make of the empty string. *)
Theorem upsert_file_empty_metadata_is_absent (file : UploadFile) :
  upsert_file file (Some EmptyString) = upsert_file file None.
Proof. reflexivity. Qed.

(** [subscription] has no [try]: an exception of the token exchange ends the
    request after that one call, and an exception of the subscription lookup
    after the two, each propagating as it is. *)
Theorem subscription_upstream_exception_propagates (request : SubscriptionRequest.t)
    (session_data : gmap string string) (redirect_uri code_verifier : string)
    (w : World) (s : state w) (e : Exception) :
  session_data !! "redirect_uri" = Some redirect_uri ->
  session_data !! "code_verifier" = Some code_verifier ->
  let c1 := get_member_access_token request.(SubscriptionRequest.code) code_verifier in
  (forall s1, respond w c1 s = (inl e, s1) ->
     run w s (subscription environ request session_data) = ([c1], Raised e))
  /\ (forall (tokens : string * string) s1 s2,
        respond w c1 s = (inr tokens, s1) ->
        respond w (wix_get_subscription tokens.1) s1 = (inl e, s2) ->
        run w s (subscription environ request session_data)
        = ([c1; wix_get_subscription tokens.1], Raised e)).
Proof.
  intros Hr Hv c1. split.
  - intros s1 H1. rewrite run_subscription, Hr, Hv. cbv zeta. fold c1.
    rewrite H1. reflexivity.
  - intros tokens s1 s2 H1 H2. rewrite run_subscription, Hr, Hv. cbv zeta. fold c1.
    rewrite H1, H2. reflexivity.
Qed.

(** [subscription] never reads the [state] of the request body: two requests
    with the same [code] are handled alike, so the state the caller sends
    back is not checked against the one in the session. *)
Theorem subscription_ignores_request_state (w : World) (s : state w)
    (code state state' : string) (session_data : gmap string string) :
  run w s (subscription environ (SubscriptionRequest.mk code state) session_data)
  = run w s (subscription environ (SubscriptionRequest.mk code state') session_data).
Proof. reflexivity. Qed.

(** *** The authorization endpoint and the gate *)

(** When one of [CLIENT_ID], [CLIENT_SECRET] and [OPENAI_CODE] is not set
    in the environment, [authorization] rejects every request: no form
    value equals a missing variable. *)
Theorem authorization_unset_variable_rejects_all :
  environ !! "CLIENT_ID" = None
  \/ environ !! "CLIENT_SECRET" = None
  \/ environ !! "OPENAI_CODE" = None ->
  forall client_id client_secret code,
    authorization environ client_id client_secret code
    = Raise (HTTPException 401 "Invalid or missing token").
Proof.
  intros Hunset client_id client_secret code.
  destruct (authorization_cases environ client_id client_secret code)
    as [(H1 & H2 & H3 & _) | [_ Hko]]; [|exact Hko].
  destruct Hunset as [H | [H | H]]; congruence.
Qed.

(** The token [authorization] hands out is one the gate accepts: sent back
    with the scheme [Bearer], it lets a request to [app] or [sub_app]
    through to its handler. *)
Theorem issued_token_opens_the_gate (client_id client_secret code : string)
    (response : TokenResponse.t) (token : string)
    (r : app_request) (body : QueryRequest.t) :
  authorization environ client_id client_secret code = Return response ->
  response.(TokenResponse.access_token) = Some token ->
  app environ (HTTPAuthorizationCredentials.mk "Bearer" token) r = app_route r
  /\ sub_app environ (HTTPAuthorizationCredentials.mk "Bearer" token) body = query body.
Proof.
  intros Hauth Htoken.
  destruct (authorization_cases environ client_id client_secret code)
    as [(_ & _ & _ & Hok) | [_ Hko]]; [|congruence].
  rewrite Hok in Hauth. injection Hauth as <-. simpl in Htoken.
  unfold app, sub_app.
  rewrite (validate_token_accepts environ
             (HTTPAuthorizationCredentials.mk "Bearer" token) eq_refl Htoken).
  split; reflexivity.
Qed.

(** The code in the redirect URL of an Elite member is the one code
    [authorization] accepts from the configured client. *)
Theorem redirect_code_is_the_accepted_code (request : SubscriptionRequest.t)
    (session_data : gmap string string) (w : World) (s : state w)
    (redirect_uri code_verifier client_id client_secret openai_code : string)
    (tokens : string * string) s1 s2 :
  session_data !! "redirect_uri" = Some redirect_uri ->
  session_data !! "code_verifier" = Some code_verifier ->
  environ !! "CLIENT_ID" = Some client_id ->
  environ !! "CLIENT_SECRET" = Some client_secret ->
  environ !! "OPENAI_CODE" = Some openai_code ->
  respond w (get_member_access_token request.(SubscriptionRequest.code) code_verifier) s
    = (inr tokens, s1) ->
  respond w (wix_get_subscription tokens.1) s1 = (inr "Elite", s2) ->
  (run w s (subscription environ request session_data)).2
  = Returned (JSONResponse.mk "You are an Elite member."
                (redirect_uri +:+ "?state=" +:+ Py.format (session_data !! "state")
                 +:+ "&code=" +:+ openai_code))
  /\ forall code,
       authorization environ client_id client_secret code
       = Return (TokenResponse.mk (BEARER_TOKEN environ) "bearer")
       <-> code = openai_code.
Proof.
  intros Hr Hv Hid Hsecret Hcode Htok Hsub. split.
  - rewrite run_subscription, Hr, Hv. cbv zeta. rewrite Htok, Hsub.
    unfold elite_response, redirect_url. rewrite Hcode. reflexivity.
  - intros code. unfold BEARER_TOKEN.
    destruct (authorization_cases environ client_id client_secret code)
      as [(_ & _ & H3 & Hok) | [Hno Hko]].
    + rewrite Hok. split; [intros _; congruence | reflexivity].
    + rewrite Hko. split; [discriminate|]. intros ->. tauto.
Qed.

End GatedRoutes.

(** ** The further properties at the concrete instance *)

Lemma login_post_stores_upstream_values_witness :
  (login_post Demo.wix_accepts "alice" "pw" (login Demo.oauth_params ∅).1).1
    !! "code_verifier" = Some "verifier"
  /\ callback (login_post Demo.wix_accepts "alice" "pw" (login Demo.oauth_params ∅).1).1
     = TemplateResponse.mk "callback.html"
         (Some "https://www.wix.example/authorize?state=xyz").
Proof.
  assert (Hwix : Demo.wix_accepts "alice" "pw" ((login Demo.oauth_params ∅).1 !! "state")
                 = inr ("https://www.wix.example/authorize?state=xyz", "verifier"))
    by (vm_compute; reflexivity).
  destruct (login_post_stores_upstream_values Demo.wix_accepts "alice" "pw"
              (login Demo.oauth_params ∅).1
              "https://www.wix.example/authorize?state=xyz" "verifier" Hwix)
    as (_ & Hcv & _ & _ & Hcallback).
  split; [exact Hcv | exact Hcallback].
Defined.

Lemma oauth_flow_echoes_state_and_verifier_witness :
  run Demo.healthy tt
    (subscription Demo.environ Demo.subscription_request
       (login_post Demo.wix_accepts "alice" "pw" (login Demo.oauth_params ∅).1).1)
  = ([get_member_access_token "wix-code" "verifier";
      wix_get_subscription "member-token"],
     Returned
       (JSONResponse.mk "You are an Elite member."
          "https://chat.openai.com/aip/plugin/oauth/callback?state=xyz&code=issued-code")).
Proof.
  apply (oauth_flow_echoes_state_and_verifier Demo.environ Demo.wix_accepts
           Demo.healthy tt tt tt "code" "plugin-client" "read" "xyz"
           "https://chat.openai.com/aip/plugin/oauth/callback" "alice" "pw" ∅
           "https://www.wix.example/authorize?state=xyz" "verifier"
           Demo.subscription_request ("member-token", "refresh-token"));
    reflexivity.
Defined.

Lemma callback_needs_accepted_login_witness :
  login_post Demo.wix_refuses "alice" "pw" (login Demo.oauth_params ∅).1
  = ((login Demo.oauth_params ∅).1, inl (Error "HTTPStatusError" "401 Unauthorized"))
  /\ callback (login Demo.oauth_params ∅).1 = TemplateResponse.mk "callback.html" None
  /\ run Demo.healthy tt
       (subscription Demo.environ Demo.subscription_request (login Demo.oauth_params ∅).1)
     = ([], Raised (KeyError "code_verifier")).
Proof.
  apply (callback_needs_accepted_login Demo.environ Demo.wix_refuses Demo.healthy tt
           "code" "plugin-client" "read" "xyz"
           "https://chat.openai.com/aip/plugin/oauth/callback" "alice" "pw" ∅
           (Error "HTTPStatusError" "401 Unauthorized") Demo.subscription_request);
    reflexivity.
Defined.

Lemma app_response_needs_token_and_datastore_witness :
  (run Demo.healthy tt
     (app Demo.environ Demo.valid_credentials (POST_query Demo.query_request))).2
  = Returned (query_response (@QueryResponse.mk Demo.models [("hello", [])]))
  /\ HTTPAuthorizationCredentials.scheme Demo.valid_credentials = "Bearer"
  /\ BEARER_TOKEN Demo.environ
     = Some (HTTPAuthorizationCredentials.credentials Demo.valid_credentials)
  /\ (exists c,
        datastore_calls
          (run Demo.healthy tt
             (app Demo.environ Demo.valid_credentials (POST_query Demo.query_request))).1
        = [c]
        /\ route_datastore_call (POST_query Demo.query_request) c)
  /\ List.filter is_logger_call
       (run Demo.healthy tt
          (app Demo.environ Demo.valid_credentials (POST_query Demo.query_request))).1
     = [].
Proof.
  assert (H : (run Demo.healthy tt
                 (app Demo.environ Demo.valid_credentials
                    (POST_query Demo.query_request))).2
              = Returned (query_response (@QueryResponse.mk Demo.models [("hello", [])])))
    by (vm_compute; reflexivity).
  split; [exact H|].
  apply (app_response_needs_token_and_datastore Demo.environ Demo.valid_credentials
           (POST_query Demo.query_request) Demo.healthy tt _ H).
Defined.

Lemma upsert_file_extractor_exception_propagates_witness :
  run Demo.extractor_down tt (upsert_file Demo.notes None)
  = ([@get_document_from_file Demo.models Demo.notes (Some "file")],
     Raised (Error "ValueError" "Unsupported file type")).
Proof.
  apply (upsert_file_extractor_exception_propagates Demo.notes None
           Demo.extractor_down tt (Error "ValueError" "Unsupported file type") tt).
  reflexivity.
Defined.

Lemma subscription_upstream_exception_propagates_witness :
  run Demo.token_exchange_down tt
    (subscription Demo.environ Demo.subscription_request Demo.session_complete)
  = ([get_member_access_token "wix-code" "verifier"],
     Raised (Error "HTTPStatusError" "400 Bad Request"))
  /\ run Demo.subscription_lookup_down tt
       (subscription Demo.environ Demo.subscription_request Demo.session_complete)
     = ([get_member_access_token "wix-code" "verifier";
         wix_get_subscription "member-token"],
        Raised (Error "HTTPStatusError" "503 Service Unavailable")).
Proof.
  split.
  - apply (proj1 (subscription_upstream_exception_propagates Demo.environ
                    Demo.subscription_request Demo.session_complete
                    "https://chat.openai.com/aip/plugin/oauth/callback" "verifier"
                    Demo.token_exchange_down tt
                    (Error "HTTPStatusError" "400 Bad Request") eq_refl eq_refl) tt).
    reflexivity.
  - apply (proj2 (subscription_upstream_exception_propagates Demo.environ
                    Demo.subscription_request Demo.session_complete
                    "https://chat.openai.com/aip/plugin/oauth/callback" "verifier"
                    Demo.subscription_lookup_down tt
                    (Error "HTTPStatusError" "503 Service Unavailable") eq_refl eq_refl)
             ("member-token", "refresh-token") tt tt); reflexivity.
Defined.

Lemma authorization_unset_variable_rejects_all_witness :
  (∅ : gmap string string) !! "OPENAI_CODE" = None
  /\ @authorization Demo.models ∅ "plugin-client" "plugin-secret" "None"
     = Raise (HTTPException 401 "Invalid or missing token").
Proof.
  assert (Hunset : (∅ : gmap string string) !! "OPENAI_CODE" = None) by reflexivity.
  split; [exact Hunset|].
  apply (@authorization_unset_variable_rejects_all Demo.models ∅
           (or_intror (or_intror Hunset))).
Defined.

Lemma issued_token_opens_the_gate_witness :
  @authorization Demo.models Demo.environ "plugin-client" "plugin-secret" "issued-code"
  = Return (TokenResponse.mk (Some "bearer-secret") "bearer")
  /\ app Demo.environ (HTTPAuthorizationCredentials.mk "Bearer" "bearer-secret")
       (DELETE_delete Demo.delete_one)
     = app_route (DELETE_delete Demo.delete_one).
Proof.
  assert (H : @authorization Demo.models Demo.environ "plugin-client" "plugin-secret"
                "issued-code"
              = Return (TokenResponse.mk (Some "bearer-secret") "bearer"))
    by (vm_compute; reflexivity).
  split; [exact H|].
  apply (proj1 (issued_token_opens_the_gate Demo.environ "plugin-client" "plugin-secret"
                  "issued-code" (TokenResponse.mk (Some "bearer-secret") "bearer")
                  "bearer-secret" (DELETE_delete Demo.delete_one) Demo.query_request
                  H eq_refl)).
Defined.

Lemma redirect_code_is_the_accepted_code_witness :
  (run Demo.healthy tt
     (subscription Demo.environ Demo.subscription_request Demo.session_complete)).2
  = Returned
      (JSONResponse.mk "You are an Elite member."
         "https://chat.openai.com/aip/plugin/oauth/callback?state=xyz&code=issued-code")
  /\ @authorization Demo.models Demo.environ "plugin-client" "plugin-secret" "issued-code"
     = Return (TokenResponse.mk (BEARER_TOKEN Demo.environ) "bearer").
Proof.
  destruct (redirect_code_is_the_accepted_code Demo.environ Demo.subscription_request
              Demo.session_complete Demo.healthy tt
              "https://chat.openai.com/aip/plugin/oauth/callback" "verifier"
              "plugin-client" "plugin-secret" "issued-code"
              ("member-token", "refresh-token") tt tt
              eq_refl eq_refl eq_refl eq_refl eq_refl eq_refl eq_refl) as [Hurl Hcode].
  split; [exact Hurl|]. apply (proj2 (Hcode "issued-code")). reflexivity.
Defined.

(** ** The token gate behind [HTTPBearer], and sessions the server writes *)

Section BehindBearer.
Context `{M : Models}.
Variable environ : gmap string string.
Variable bearer_scheme : option string -> Exception + HTTPAuthorizationCredentials.t.

(** C1, as the code has it. Whatever [bearer_scheme] is: when it returns
    credentials whose scheme is not [Bearer] or whose token is not the
    configured [BEARER_TOKEN], the request to a route of [app] or [sub_app]
    is answered with 401 by [validate_token], the handler is never entered
    and no call is made, so none to the datastore; and when [bearer_scheme]
    itself raises, its exception is the answer, [validate_token] and the
    handler are never reached, and again no call is made. *)
Theorem rejected_credentials_never_reach_handler (authorization : option string)
    (r : app_request) (body : QueryRequest.t) :
  (forall credentials,
     bearer_scheme authorization = inr credentials ->
     credentials.(HTTPAuthorizationCredentials.scheme) <> "Bearer"
     \/ BEARER_TOKEN environ
        <> Some credentials.(HTTPAuthorizationCredentials.credentials) ->
     serve_app environ bearer_scheme authorization r
       = Raise (HTTPException 401 "Invalid or missing token")
     /\ serve_sub_app environ bearer_scheme authorization body
        = Raise (HTTPException 401 "Invalid or missing token")
     /\ forall (w : World) (s : state w),
          run w s (serve_app environ bearer_scheme authorization r)
            = ([], Raised (HTTPException 401 "Invalid or missing token"))
          /\ run w s (serve_sub_app environ bearer_scheme authorization body)
             = ([], Raised (HTTPException 401 "Invalid or missing token")))
  /\ (forall e,
        bearer_scheme authorization = inl e ->
        serve_app environ bearer_scheme authorization r = Raise e
        /\ serve_sub_app environ bearer_scheme authorization body = Raise e
        /\ forall (w : World) (s : state w),
             run w s (serve_app environ bearer_scheme authorization r) = ([], Raised e)
             /\ run w s (serve_sub_app environ bearer_scheme authorization body)
                = ([], Raised e)).
Proof.
  split.
  - intros credentials Hbearer Hbad.
    apply (validate_token_rejects environ) in Hbad.
    assert (Happ : serve_app environ bearer_scheme authorization r
                   = Raise (HTTPException 401 "Invalid or missing token")).
    { unfold serve_app, app. rewrite Hbearer, Hbad. reflexivity. }
    assert (Hsub : serve_sub_app environ bearer_scheme authorization body
                   = Raise (HTTPException 401 "Invalid or missing token")).
    { unfold serve_sub_app, sub_app. rewrite Hbearer, Hbad. reflexivity. }
    split; [exact Happ|]. split; [exact Hsub|].
    intros w s. rewrite Happ, Hsub. split; reflexivity.
  - intros e Hbearer.
    assert (Happ : serve_app environ bearer_scheme authorization r = Raise e).
    { unfold serve_app. rewrite Hbearer. reflexivity. }
    assert (Hsub : serve_sub_app environ bearer_scheme authorization body = Raise e).
    { unfold serve_sub_app. rewrite Hbearer. reflexivity. }
    split; [exact Happ|]. split; [exact Hsub|].
    intros w s. rewrite Happ, Hsub. split; reflexivity.
Qed.

(** In a session the server has written, [redirect_uri] is never there
    without [state]: [login] stores the two together and nothing removes a
    key. *)
Lemma server_written_state (session_data : gmap string string) :
  server_written session_data ->
  session_data !! "state" = None ->
  session_data !! "redirect_uri" = None.
Proof.
  induction 1 as [ | response_type client_id scope state redirect_uri session_data _ _
                   | wix username password session_data _ IH ]; intros Hstate.
  - apply lookup_empty.
  - rewrite login_lookup_state in Hstate. discriminate Hstate.
  - unfold login_post in *.
    destruct (wix username password (session_data !! "state"))
      as [e | [wix_callback_url code_verifier]]; simpl in *.
    + apply IH, Hstate.
    + rewrite !lookup_insert_ne in Hstate by discriminate.
      rewrite !lookup_insert_ne by discriminate. apply IH, Hstate.
Qed.


End BehindBearer.

(** A request with the scheme [Basic] does not reach [validate_token]:
    [HTTPBearer] answers it with 403, not 401. *)
Lemma basic_scheme_is_403_from_bearer_scheme :
  HTTPBearer.call (Some "Basic bearer-secret")
  = inl (HTTPException 403 "Invalid authentication credentials")
  /\ run Demo.healthy tt
       (serve_app Demo.environ HTTPBearer.call (Some "Basic bearer-secret")
          (DELETE_delete Demo.delete_one))
     = ([], Raised (HTTPException 403 "Invalid authentication credentials"))
  /\ run Demo.healthy tt
       (serve_app Demo.environ HTTPBearer.call (Some "Basic bearer-secret")
          (DELETE_delete Demo.delete_one))
     <> ([], Raised (HTTPException 401 "Invalid or missing token")).
Proof.
  split; [reflexivity|]. split; [reflexivity|]. discriminate.
Qed.

(** The scheme [bearer] passes [HTTPBearer] and is not [Bearer]; a missing
    header does not pass it. *)
Lemma rejected_credentials_never_reach_handler_witness :
  HTTPBearer.call (Some "bearer bearer-secret")
  = inr (HTTPAuthorizationCredentials.mk "bearer" "bearer-secret")
  /\ run Demo.healthy tt
       (serve_app Demo.environ HTTPBearer.call (Some "bearer bearer-secret")
          (DELETE_delete Demo.delete_one))
     = ([], Raised (HTTPException 401 "Invalid or missing token"))
  /\ run Demo.healthy tt
       (serve_sub_app Demo.environ HTTPBearer.call None Demo.query_request)
     = ([], Raised (HTTPException 403 "Not authenticated")).
Proof.
  assert (Hbearer : HTTPBearer.call (Some "bearer bearer-secret")
                    = inr (HTTPAuthorizationCredentials.mk "bearer" "bearer-secret"))
    by reflexivity.
  assert (Hscheme : HTTPAuthorizationCredentials.scheme
                      (HTTPAuthorizationCredentials.mk "bearer" "bearer-secret")
                    <> "Bearer") by discriminate.
  split; [exact Hbearer|]. split.
  - destruct (rejected_credentials_never_reach_handler Demo.environ HTTPBearer.call
                (Some "bearer bearer-secret") (DELETE_delete Demo.delete_one)
                Demo.query_request) as [H401 _].
    destruct (H401 _ Hbearer (or_introl Hscheme)) as (_ & _ & Hrun).
    apply (Hrun Demo.healthy tt).
  - destruct (rejected_credentials_never_reach_handler Demo.environ HTTPBearer.call
                None (DELETE_delete Demo.delete_one) Demo.query_request) as [_ H403].
    destruct (H403 (HTTPException 403 "Not authenticated") eq_refl) as (_ & _ & Hrun).
    apply (Hrun Demo.healthy tt).
Defined.

